(** * Esc interception and interrupt escalation of [main.py]

    A shallow embedding of the parts of [src/main.py] that make up the
    exclusive-Esc interceptor ([_WindowsExclusiveEscHook]), the lifecycle
    glue of [Application] and the four notification slots, together with
    the teacher-facing error classifier [_simplify_for_teacher].

    Conventions.
    - A Python [str] is a list of Unicode code points ([pystr]); literals
      are written as in the source and decoded from UTF-8 by [py].
    - [time.time()] readings and the literals [0.25], [0.35] and [2.0]
      are exact rationals ([Q], in seconds); the rounding of binary
      floating point is not modelled.
    - Calls into collaborators (Qt, the main window, the [keyboard]
      library, the OS) are recorded as events of a trace, in call order. *)

From Stdlib Require Import ZArith NArith QArith List String Ascii Bool Lia Lqa.
Import ListNotations.

Set Implicit Arguments.

(* ------------------------------------------------------------------ *)
(** * Python strings *)

Module PyStr.

Definition pystr := list N.

Definition byte_val (a : ascii) : N := N_of_ascii a.

(** UTF-8 decoding of a literal (well-formed input; a malformed lead byte
    is kept as a single code point). *)
Fixpoint utf8_decode (fuel : nat) (bs : list N) : pystr :=
  match fuel with
  | O => []
  | S fuel' =>
    match bs with
    | [] => []
    | b0 :: r0 =>
      if (b0 <? 128)%N then b0 :: utf8_decode fuel' r0
      else if (b0 <? 224)%N then
        match r0 with
        | b1 :: r1 =>
            ((b0 - 192) * 64 + (b1 - 128))%N :: utf8_decode fuel' r1
        | _ => [b0]
        end
      else if (b0 <? 240)%N then
        match r0 with
        | b1 :: b2 :: r2 =>
            ((b0 - 224) * 4096 + (b1 - 128) * 64 + (b2 - 128))%N
              :: utf8_decode fuel' r2
        | _ => [b0]
        end
      else
        match r0 with
        | b1 :: b2 :: b3 :: r3 =>
            ((b0 - 240) * 262144 + (b1 - 128) * 4096
             + (b2 - 128) * 64 + (b3 - 128))%N :: utf8_decode fuel' r3
        | _ => [b0]
        end
    end
  end.

Definition py (s : string) : pystr :=
  let bs := List.map byte_val (list_ascii_of_string s) in
  utf8_decode (List.length bs) bs.

(** [str.isspace] for one code point ([_PyUnicode_IsWhitespace]). *)
Definition is_whitespace (c : N) : bool :=
  ((9 <=? c) && (c <=? 13) || (28 <=? c) && (c <=? 32)
   || (c =? 133) || (c =? 160) || (c =? 5760)
   || (8192 <=? c) && (c <=? 8202)
   || (c =? 8232) || (c =? 8233) || (c =? 8239) || (c =? 8287)
   || (c =? 12288))%N.

Fixpoint lstrip (s : pystr) : pystr :=
  match s with
  | [] => []
  | c :: r => if is_whitespace c then lstrip r else s
  end.

Definition rstrip (s : pystr) : pystr := rev (lstrip (rev s)).

(** [s.strip()] *)
Definition strip (s : pystr) : pystr := rstrip (lstrip s).

(** A word whose first and last code points are not white space. *)
Definition solid_ends (v : pystr) : bool :=
  match v with
  | [] => false
  | c :: _ => negb (is_whitespace c) && negb (is_whitespace (last v 0%N))
  end.

(** [s.startswith(k)] *)
Fixpoint startswith (k s : pystr) : bool :=
  match k, s with
  | [], _ => true
  | _ :: _, [] => false
  | a :: k', b :: s' => (a =? b)%N && startswith k' s'
  end.

(** [k in s] *)
Fixpoint contains (k s : pystr) : bool :=
  startswith k s ||
  match s with
  | [] => false
  | _ :: s' => contains k s'
  end.

(** [any(k in s for k in ks)] *)
Definition any_in (ks : list pystr) (s : pystr) : bool :=
  existsb (fun k => contains k s) ks.

(** [s[:n]] *)
Definition slice_to (n : nat) (s : pystr) : pystr := firstn n s.

(** ASCII part of [str.lower]: A-Z to a-z. *)
Definition ascii_lower (c : N) : N :=
  if ((65 <=? c) && (c <=? 90))%N then (c + 32)%N else c.

Section Lower.
(** The lower-case mapping of the Unicode database for a non-ASCII code
    point, which may depend on the text before and after it (final
    sigma) and may yield several code points. *)
Variable unicode_lower : pystr -> N -> pystr -> pystr.

Definition lower_char (before : pystr) (c : N) (after : pystr) : pystr :=
  if (c <? 128)%N then [ascii_lower c] else unicode_lower before c after.

Fixpoint lower_from (before s : pystr) : pystr :=
  match s with
  | [] => []
  | c :: r => lower_char before c r ++ lower_from (before ++ [c]) r
  end.

(** [s.lower()] *)
Definition lower (s : pystr) : pystr := lower_from [] s.
End Lower.

End PyStr.

Import PyStr.

(* ------------------------------------------------------------------ *)
(** * The error classifier [Application._simplify_for_teacher] *)

Module Classifier.

Definition msg_timeout : pystr := Eval vm_compute in
  py "网络可能不稳定（连接超时）。建议：检查网络，稍等再试。".
Definition msg_auth : pystr := Eval vm_compute in
  py "密钥可能不正确或已失效。建议：重新复制密钥再试。".
Definition msg_quota : pystr := Eval vm_compute in
  py "账号可能没有权限或余额/额度不足。建议：检查账号余额/额度。".
Definition msg_rate_limit : pystr := Eval vm_compute in
  py "请求太频繁，平台临时限制。建议：等10~30秒再试。".
Definition msg_unavailable : pystr := Eval vm_compute in
  py "平台服务繁忙或临时不可用。建议：稍后再试或换备用平台。".
Definition msg_file_locked : pystr := Eval vm_compute in
  py "文件可能被占用或没有写入权限。建议：关闭Excel后再试。".
Definition msg_no_reason : pystr := Eval vm_compute in
  py "发生了错误，但没有收到具体原因。".
Definition generic_prefix : pystr := Eval vm_compute in py "发生了错误：".
Definition ellipsis : pystr := Eval vm_compute in py "…".

Definition keys_timeout : list pystr := Eval vm_compute in
  [py "timed out"; py "timeout"].
Definition keys_auth : list pystr := Eval vm_compute in
  [py "401"; py "unauthorized"; py "invalid api key"].
Definition keys_quota : list pystr := Eval vm_compute in
  [py "403"; py "forbidden"; py "quota"; py "余额"; py "payment";
   py "insufficient"].
Definition keys_rate_limit : list pystr := Eval vm_compute in
  [py "429"; py "rate limit"; py "too many"].
Definition keys_unavailable : list pystr := Eval vm_compute in
  [py "502"; py "503"; py "504"; py "service unavailable"; py "bad gateway"].
Definition keys_file_locked : list pystr := Eval vm_compute in
  [py "permission"; py "access is denied"; py "被占用"; py "正在使用"].

(** [f"发生了错误：{t[:80]}{'…' if len(t) > 80 else ''}"] *)
Definition generic_echo (t : pystr) : pystr :=
  generic_prefix ++ slice_to 80 t
    ++ (if (80 <? List.length t)%nat then ellipsis else []).

Section WithUnicode.
Variable unicode_lower : pystr -> N -> pystr -> pystr.

(** [text] is a [str], so [(text or "")] is [text] itself. *)
Definition _simplify_for_teacher (text : pystr) : pystr :=
  let t := strip text in
  let low := lower unicode_lower t in
  if any_in keys_timeout low then msg_timeout
  else if any_in keys_auth low then msg_auth
  else if any_in keys_quota low then msg_quota
  else if any_in keys_rate_limit low then msg_rate_limit
  else if any_in keys_unavailable low then msg_unavailable
  else if any_in keys_file_locked low then msg_file_locked
  else match t with
       | [] => msg_no_reason
       | _ :: _ => generic_echo t
       end.
End WithUnicode.

(** The classification table as the specification words it: rows in
    priority order, each a pattern set and its category message. *)
Definition priority_table : list (list pystr * pystr) :=
  [ (keys_timeout, msg_timeout);
    (keys_auth, msg_auth);
    (keys_quota, msg_quota);
    (keys_rate_limit, msg_rate_limit);
    (keys_unavailable, msg_unavailable);
    (keys_file_locked, msg_file_locked) ].

Definition first_match (low : pystr) : option (list pystr * pystr) :=
  find (fun row => any_in (fst row) low) priority_table.

(** [v] is [k] up to the case of ASCII letters ([k] itself lower case). *)
Definition case_variant_of (k v : pystr) : Prop := List.map ascii_lower v = k.

Definition is_ascii (k : pystr) : bool := forallb (fun c => (c <? 128)%N) k.

(** The message of the specification's example, in lower case. *)
Definition connection_timed_out : pystr := Eval vm_compute in
  py "connection timed out after 30s".

End Classifier.

Import Classifier.

(** A lower-case table that maps every non-ASCII code point to itself: it
    agrees with Unicode on uncased text (CJK, punctuation, digits). *)
Definition uncased_lower : pystr -> N -> pystr -> pystr := fun _ c _ => [c].

(* ------------------------------------------------------------------ *)
(** * Programs with state, exceptions and a trace of calls *)

Module Prog.

(** Result of a Python call: a value, or an instance of [Exception]
    propagating to the caller. *)
Inductive outcome (A : Type) : Type :=
| Returned (a : A)
| Raised.
Arguments Raised {A}.

Section Def.
Variables S E : Type.

Definition prog (A : Type) : Type := S -> outcome A * S * list E.

Definition ret (A : Type) (a : A) : prog A := fun s => (Returned a, s, []).

Definition bind (A B : Type) (m : prog A) (f : A -> prog B) : prog B :=
  fun s =>
    match m s with
    | (Returned a, s1, t1) =>
        let '(r, s2, t2) := f a s1 in (r, s2, t1 ++ t2)
    | (Raised, s1, t1) => (Raised, s1, t1)
    end.

Definition get : prog S := fun s => (Returned s, s, []).
Definition modify (f : S -> S) : prog unit := fun s => (Returned tt, f s, []).
(** A call into a collaborator, recorded in the trace. *)
Definition emit (e : E) : prog unit := fun s => (Returned tt, s, [e]).
(** The result of a call whose outcome the environment decides. *)
Definition call (A : Type) (o : outcome A) : prog A := fun s => (o, s, []).

(** [try: body except Exception: handler] *)
Definition try_except (A : Type) (body handler : prog A) : prog A :=
  fun s =>
    match body s with
    | (Raised, s1, t1) =>
        let '(r, s2, t2) := handler s1 in (r, s2, t1 ++ t2)
    | done => done
    end.

Definition when (b : bool) (m : prog unit) : prog unit :=
  if b then m else ret tt.

Definition result_of (A : Type) (x : outcome A * S * list E) : outcome A :=
  fst (fst x).
Definition state_of (A : Type) (x : outcome A * S * list E) : S :=
  snd (fst x).
Definition trace_of (A : Type) (x : outcome A * S * list E) : list E :=
  snd x.
End Def.

Arguments ret {S E A} a.
Arguments get {S E}.
Arguments modify {S E} f.
Arguments emit {S E} e.
Arguments call {S E A} o.
Arguments when {S E} b m.

Declare Scope prog_scope.
Delimit Scope prog_scope with prog.
Notation "x <- m ;; k" := (bind m (fun x => k))
  (at level 61, m at next level, right associativity) : prog_scope.
Notation "m ;; k" := (bind m (fun _ => k))
  (at level 61, right associativity) : prog_scope.

End Prog.

Import Prog.
Open Scope prog_scope.

(* ------------------------------------------------------------------ *)
(** * Calls recorded in the trace *)

Inductive Dialog : Type :=
| SimpleNotificationDialog (title message sound_type : pystr)
| ManualInterventionDialog (title message raw_feedback sound_type : pystr).

Inductive Event : Type :=
| EscSetEnabled (enabled : bool)     (* [_WindowsExclusiveEscHook.set_enabled] *)
| HookThreadStart                    (* [threading.Thread(...).start()] *)
| SetWindowsHookExW
| UnhookWindowsHookEx
| PostThreadMessageW_QUIT
| StopRequested                      (* [QTimer.singleShot(0, stop_auto_thread)] *)
| KeyboardAddHotkey                  (* [_keyboard.add_hotkey('esc', ..., suppress=True)] *)
| KeyboardRemoveHotkey (hid : Z)
| ListenerStart                      (* [kb.Listener(on_press=...).start()] *)
| ListenerStop
| AboutToQuitConnect
| LogMessage (msg : pystr)
| Print (msg : pystr)                (* without the text of a caught exception *)
| OnWorkerFinished
| OnWorkerError (msg : pystr)
| UpdateUiState (is_running : bool)
| ShowNormal
| RaiseWindow
| ActivateWindow
| ExecDialog (d : Dialog).

Definition is_dialog (e : Event) : bool :=
  match e with ExecDialog _ => true | _ => false end.

Definition count_dialogs (tr : list Event) : nat :=
  List.length (filter is_dialog tr).

Definition is_stop_request (e : Event) : bool :=
  match e with StopRequested => true | _ => false end.

Definition count_stop_requests (tr : list Event) : nat :=
  List.length (filter is_stop_request tr).

Definition is_thread_start (e : Event) : bool :=
  match e with HookThreadStart => true | _ => false end.

Definition is_hook_install (e : Event) : bool :=
  match e with SetWindowsHookExW => true | _ => false end.

Definition count_events (p : Event -> bool) (tr : list Event) : nat :=
  List.length (filter p tr).

(** Calls on the main window, the console and the dialogs: everything
    that does not touch the interceptor. *)
Definition is_ui_event (e : Event) : bool :=
  match e with
  | LogMessage _ | Print _ | OnWorkerFinished | OnWorkerError _
  | UpdateUiState _ | ShowNormal | RaiseWindow | ActivateWindow
  | ExecDialog _ => true
  | _ => false
  end.

(** Walks a trace with the armed status of the interceptor and checks
    that every dialog is shown while it is disarmed. *)
Fixpoint dialogs_while_disarmed (armed : bool) (tr : list Event) : bool :=
  match tr with
  | [] => true
  | EscSetEnabled b :: tr' => dialogs_while_disarmed b tr'
  | KeyboardAddHotkey :: tr' => dialogs_while_disarmed true tr'
  | ExecDialog _ :: tr' => negb armed && dialogs_while_disarmed armed tr'
  | _ :: tr' => dialogs_while_disarmed armed tr'
  end.

(** Calls that install, arm or fire an interceptor. *)
Definition is_capture_event (e : Event) : bool :=
  match e with
  | HookThreadStart | SetWindowsHookExW | EscSetEnabled true
  | KeyboardAddHotkey | ListenerStart | StopRequested => true
  | _ => false
  end.

Definition Qlt_bool (a b : Q) : bool := negb (Qle_bool b a).

(* ------------------------------------------------------------------ *)
(** * [_WindowsExclusiveEscHook] *)

Module Hook.

Definition _WH_KEYBOARD_LL : Z := 13.
Definition _WM_KEYDOWN : Z := 256.     (* 0x0100 *)
Definition _WM_SYSKEYDOWN : Z := 260.  (* 0x0104 *)
Definition _VK_ESCAPE : Z := 27.       (* 0x1B *)
Definition _HC_ACTION : Z := 0.
Definition _WM_QUIT : Z := 18.         (* 0x0012 *)

Record KBDLLHOOKSTRUCT : Type := {
  vkCode : Z; scanCode : Z; flags : Z; time : Z; dwExtraInfo : Z
}.

Inductive Thread : Type := ExclusiveEscHookThread.

(** The fields of the object; [_lock] only serialises access to
    [_enabled], and [_proc_ref] only keeps the callback alive. *)
Record EscHook : Type := {
  _enabled : bool;
  _last_hit_ts : Q;
  _hook_handle : option Z;   (* [None], or what [SetWindowsHookExW] gave *)
  _thread : option Thread;
  _thread_id : Z
}.

(** [__init__] *)
Definition init : EscHook :=
  {| _enabled := false; _last_hit_ts := 0; _hook_handle := None;
     _thread := None; _thread_id := 0 |}.

Definition with_enabled (b : bool) (h : EscHook) : EscHook :=
  {| _enabled := b; _last_hit_ts := _last_hit_ts h;
     _hook_handle := _hook_handle h; _thread := _thread h;
     _thread_id := _thread_id h |}.
Definition with_last_hit_ts (t : Q) (h : EscHook) : EscHook :=
  {| _enabled := _enabled h; _last_hit_ts := t;
     _hook_handle := _hook_handle h; _thread := _thread h;
     _thread_id := _thread_id h |}.
Definition with_hook_handle (x : option Z) (h : EscHook) : EscHook :=
  {| _enabled := _enabled h; _last_hit_ts := _last_hit_ts h;
     _hook_handle := x; _thread := _thread h; _thread_id := _thread_id h |}.
Definition with_thread (x : option Thread) (h : EscHook) : EscHook :=
  {| _enabled := _enabled h; _last_hit_ts := _last_hit_ts h;
     _hook_handle := _hook_handle h; _thread := x;
     _thread_id := _thread_id h |}.
Definition with_thread_id (x : Z) (h : EscHook) : EscHook :=
  {| _enabled := _enabled h; _last_hit_ts := _last_hit_ts h;
     _hook_handle := _hook_handle h; _thread := _thread h; _thread_id := x |}.

(** Truth value of [self._hook_handle]: neither [None] nor [0]. *)
Definition handle_truthy (x : option Z) : bool :=
  match x with
  | Some v => negb (v =? 0)%Z
  | None => false
  end.

Definition hprog := prog EscHook Event.

Definition set_enabled (enabled : bool) : hprog unit :=
  emit (EscSetEnabled enabled) ;; modify (with_enabled enabled).

(** What the callback returns to the OS. *)
Inductive HookResult : Type :=
| Swallow     (* [return 1] *)
| CallNext.   (* [return user32.CallNextHookEx(...)]: forwarded unchanged *)

(** What the environment answers during one run of the callback: the
    structure behind [lParam], the constructor's [should_swallow()]
    ([worker.isRunning()]), the clock, and the constructor's [on_esc()]. *)
Record HookEnv : Type := {
  lParam_contents : outcome KBDLLHOOKSTRUCT;
  should_swallow : outcome bool;
  now : Q;
  on_esc : outcome unit
}.

Section WithPlatform.
Variable sys_platform : string.

Definition is_win32 : bool := String.eqb sys_platform "win32".

(** The body of the [try] block of [_hook_proc]. *)
Definition hook_proc_body (env : HookEnv) (nCode wParam : Z)
  : hprog HookResult :=
  if ((nCode =? _HC_ACTION) &&
      ((wParam =? _WM_KEYDOWN) || (wParam =? _WM_SYSKEYDOWN)))%Z
  then
    kb <- call (lParam_contents env) ;;
    if (vkCode kb =? _VK_ESCAPE)%Z then
      h <- get ;;
      let enabled := _enabled h in
      swallow <- (if enabled then call (should_swallow env) else ret false) ;;
      if enabled && swallow then
        (h <- get ;;
         if Qle_bool (1 # 4) (now env - _last_hit_ts h) then
           modify (with_last_hit_ts (now env)) ;;
           call (on_esc env) ;;
           emit StopRequested
         else ret tt) ;;
        ret Swallow
      else ret CallNext
    else ret CallNext
  else ret CallNext.

(** [_hook_proc]; [user32.CallNextHookEx] itself is taken to return. *)
Definition _hook_proc (env : HookEnv) (nCode wParam : Z)
  : hprog HookResult :=
  try_except (hook_proc_body env nCode wParam) (ret CallNext).

(** [start] *)
Definition start : hprog bool :=
  if negb is_win32 then ret false
  else
    h <- get ;;
    match _thread h with
    | Some _ => ret true
    | None =>
        emit HookThreadStart ;;
        modify (with_thread (Some ExclusiveEscHookThread)) ;;
        ret true
    end.

(** [_thread_main], run on the hook thread, up to its message loop:
    [tid] is what [GetCurrentThreadId] gives and [hhook] what
    [SetWindowsHookExW] gives.  Returns whether the loop is entered;
    when it is not, the [finally] block has run. *)
Definition _thread_main_enter (tid hhook : Z) : hprog bool :=
  modify (with_thread_id tid) ;;
  emit SetWindowsHookExW ;;
  modify (with_hook_handle (Some hhook)) ;;
  if negb (handle_truthy (Some hhook)) then
    modify (with_hook_handle None) ;; ret false
  else ret true.

(** [_thread_main] after [GetMessageW] gave 0: the [finally] block. *)
Definition _thread_main_leave : hprog unit :=
  h <- get ;;
  when (handle_truthy (_hook_handle h)) (emit UnhookWindowsHookEx) ;;
  modify (with_hook_handle None).

(** [stop] *)
Definition stop : hprog unit :=
  if negb is_win32 then ret tt
  else
    h <- get ;;
    when (negb (_thread_id h =? 0)%Z) (emit PostThreadMessageW_QUIT).
End WithPlatform.

(** One key event reaching the callback. *)
Record KeyEvent : Type := {
  nCode : Z; wParam : Z; env : HookEnv
}.

(** The event is a key-down of Esc that the callback recognises. *)
Definition is_esc_keydown (k : KeyEvent) : bool :=
  match lParam_contents (env k) with
  | Returned kb =>
      ((nCode k =? _HC_ACTION)
       && ((wParam k =? _WM_KEYDOWN) || (wParam k =? _WM_SYSKEYDOWN))
       && (vkCode kb =? _VK_ESCAPE))%Z
  | Raised => false
  end.

(** The interceptor is armed for this event: the flag is set and the
    worker is running. *)
Definition armed (h : EscHook) (k : KeyEvent) : bool :=
  _enabled h &&
  match should_swallow (env k) with
  | Returned b => b
  | Raised => false
  end.

(** At least 250 ms since the last accepted trigger. *)
Definition debounce_elapsed (h : EscHook) (k : KeyEvent) : bool :=
  Qle_bool (1 # 4) (now (env k) - _last_hit_ts h).

(** An Esc key-down at clock reading [t] while the worker runs and the
    stop request can be scheduled. *)
Definition esc_press (t : Q) : KeyEvent :=
  {| nCode := _HC_ACTION; wParam := _WM_KEYDOWN;
     env := {| lParam_contents :=
                 Returned {| vkCode := _VK_ESCAPE; scanCode := 1; flags := 0;
                             time := 0; dwExtraInfo := 0 |};
               should_swallow := Returned true;
               now := t;
               on_esc := Returned tt |} |}.

(** Successive runs of the callback; collects what each returned. *)
Fixpoint run_keys (ks : list KeyEvent) : hprog (list HookResult) :=
  match ks with
  | [] => ret []
  | k :: ks' =>
      r <- _hook_proc (env k) (nCode k) (wParam k) ;;
      rs <- run_keys ks' ;;
      ret (r :: rs)
  end.

End Hook.

(* ------------------------------------------------------------------ *)
(** * [Application]: lifecycle glue and notification slots *)

Module App.

(** The optional third-party [keyboard] module: registering the hotkey
    gives an id or raises; removing one may raise. *)
Record KeyboardLib : Type := {
  add_hotkey : outcome Z;
  remove_hotkey : Z -> outcome unit
}.

(** The optional [pynput.keyboard] module: starting a listener may raise. *)
Record PynputLib : Type := {
  listener_start : outcome unit
}.

(** What the process finds at run time. *)
Record Runtime : Type := {
  sys_platform : string;
  _keyboard : option KeyboardLib;          (* [None] when the import failed *)
  _pynput_keyboard : option PynputLib;     (* [None] when the import failed *)
  has_log_message : bool;                  (* [hasattr(main_window, ...)] *)
  has_on_worker_error : bool;
  has_update_ui_state : bool;
  unicode_lower : pystr -> N -> pystr -> pystr
}.

Inductive Listener : Type := EscListener.

(** The fields of [Application] this part of the program reads and writes,
    with the minimised flag of its main window. *)
Record Application : Type := {
  _suppress_error_dialog_until : Q;
  _global_esc_listener : option Listener;
  _global_esc_last_hit_ts : Q;
  _exclusive_esc_hotkey_id : option Z;
  _win_exclusive_esc : option Hook.EscHook;
  main_window_minimized : bool
}.

(** [__init__], for a main window that is minimised or not. *)
Definition init (minimized : bool) : Application :=
  {| _suppress_error_dialog_until := 0;
     _global_esc_listener := None;
     _global_esc_last_hit_ts := 0;
     _exclusive_esc_hotkey_id := None;
     _win_exclusive_esc := Some Hook.init;
     main_window_minimized := minimized |}.

Definition with_suppress_until (t : Q) (a : Application) : Application :=
  {| _suppress_error_dialog_until := t;
     _global_esc_listener := _global_esc_listener a;
     _global_esc_last_hit_ts := _global_esc_last_hit_ts a;
     _exclusive_esc_hotkey_id := _exclusive_esc_hotkey_id a;
     _win_exclusive_esc := _win_exclusive_esc a;
     main_window_minimized := main_window_minimized a |}.
Definition with_listener (l : option Listener) (a : Application) : Application :=
  {| _suppress_error_dialog_until := _suppress_error_dialog_until a;
     _global_esc_listener := l;
     _global_esc_last_hit_ts := _global_esc_last_hit_ts a;
     _exclusive_esc_hotkey_id := _exclusive_esc_hotkey_id a;
     _win_exclusive_esc := _win_exclusive_esc a;
     main_window_minimized := main_window_minimized a |}.
Definition with_global_last_hit_ts (t : Q) (a : Application) : Application :=
  {| _suppress_error_dialog_until := _suppress_error_dialog_until a;
     _global_esc_listener := _global_esc_listener a;
     _global_esc_last_hit_ts := t;
     _exclusive_esc_hotkey_id := _exclusive_esc_hotkey_id a;
     _win_exclusive_esc := _win_exclusive_esc a;
     main_window_minimized := main_window_minimized a |}.
Definition with_hotkey_id (x : option Z) (a : Application) : Application :=
  {| _suppress_error_dialog_until := _suppress_error_dialog_until a;
     _global_esc_listener := _global_esc_listener a;
     _global_esc_last_hit_ts := _global_esc_last_hit_ts a;
     _exclusive_esc_hotkey_id := x;
     _win_exclusive_esc := _win_exclusive_esc a;
     main_window_minimized := main_window_minimized a |}.
Definition with_hook (h : option Hook.EscHook) (a : Application) : Application :=
  {| _suppress_error_dialog_until := _suppress_error_dialog_until a;
     _global_esc_listener := _global_esc_listener a;
     _global_esc_last_hit_ts := _global_esc_last_hit_ts a;
     _exclusive_esc_hotkey_id := _exclusive_esc_hotkey_id a;
     _win_exclusive_esc := h;
     main_window_minimized := main_window_minimized a |}.
Definition with_minimized (b : bool) (a : Application) : Application :=
  {| _suppress_error_dialog_until := _suppress_error_dialog_until a;
     _global_esc_listener := _global_esc_listener a;
     _global_esc_last_hit_ts := _global_esc_last_hit_ts a;
     _exclusive_esc_hotkey_id := _exclusive_esc_hotkey_id a;
     _win_exclusive_esc := _win_exclusive_esc a;
     main_window_minimized := b |}.

(** The interceptor as [__init__] made it: the hook object untouched
    (no thread, no handle, flag clear), no hotkey registered and no
    listener running. *)
Definition pristine (a : Application) : Prop :=
  _win_exclusive_esc a = Some Hook.init
  /\ _exclusive_esc_hotkey_id a = None
  /\ _global_esc_listener a = None.

Definition aprog := prog Application Event.

(** Runs a method of the hook object [h] held in [_win_exclusive_esc]. *)
Definition on_hook (A : Type) (m : Hook.hprog A) (h : Hook.EscHook) : aprog A :=
  fun a => let '(r, h', t) := m h in (r, with_hook (Some h') a, t).

(** The terminal signals of the worker. *)
Inductive TerminalSignal : Type :=
| Completed
| Error (message : pystr)
| ThresholdExceeded (reason : pystr)
| ManualIntervention (message raw_feedback : pystr).

Definition is_error (s : TerminalSignal) : bool :=
  match s with Error _ => true | _ => false end.


Definition newline : pystr := [10%N].

Definition keys_manual_review : list pystr := Eval vm_compute in
  [py "需人工介入"; py "需要人工介入"; py "人工介入"; py "异常试卷"].

Definition user_stop : pystr := Eval vm_compute in py "用户手动停止".
Definition manual_stop : pystr := Eval vm_compute in py "手动停止".

Definition is_user_stop (msg : pystr) : bool :=
  contains user_stop msg || contains manual_stop msg.

Definition completion_dialog : Dialog :=
  SimpleNotificationDialog
    (py "批次完成")
    (py "✅ 本次自动阅卷已完成！" ++ newline ++ newline
       ++ py "请复查AI阅卷结果，人工审核0分、满分")
    (py "info").

Definition threshold_dialog : Dialog :=
  SimpleNotificationDialog
    (py "双评分差过大")
    (py "两次评分差距过大，需要人工复核。" ++ newline ++ newline
       ++ py "建议：人工查看该题答题截图，确认分数后再继续下一份。")
    (py "error").

Definition manual_intervention_dialog (message raw_feedback : pystr) : Dialog :=
  ManualInterventionDialog
    (py "人工介入")
    (message ++ newline ++ newline ++ py "请人工检查并处理。")
    raw_feedback
    (py "error").

Section WithRuntime.
Variable rt : Runtime.

Definition is_win32 : bool := Hook.is_win32 (sys_platform rt).

Definition log_message (msg : pystr) : aprog unit :=
  when (has_log_message rt) (emit (LogMessage msg)).

Definition update_ui_state_not_running : aprog unit :=
  when (has_update_ui_state rt) (emit (UpdateUiState false)).

Definition isMinimized : aprog bool :=
  a <- get ;; ret (main_window_minimized a).

Definition showNormal : aprog unit :=
  emit ShowNormal ;; modify (with_minimized false).

(** The closing lines of every slot that shows a dialog. *)
Definition restore_main_window : aprog unit :=
  m <- isMinimized ;;
  when m showNormal ;;
  emit RaiseWindow ;;
  emit ActivateWindow.

(** [_disable_exclusive_esc] *)
Definition _disable_exclusive_esc : aprog unit :=
  try_except
    (a <- get ;;
     match _win_exclusive_esc a with
     | Some h => on_hook (Hook.set_enabled false) h
     | None => ret tt
     end)
    (ret tt) ;;
  match _keyboard rt with
  | None => ret tt
  | Some kb =>
      try_except
        (a <- get ;;
         match _exclusive_esc_hotkey_id a with
         | Some hid =>
             emit (KeyboardRemoveHotkey hid) ;; call (remove_hotkey kb hid)
         | None => ret tt
         end)
        (ret tt) ;;
      modify (with_hotkey_id None)
  end.

(** What [_disable_exclusive_esc] leaves behind, and the calls it
    makes: the flag of the hook object cleared and, when the [keyboard]
    module is there, the registered hotkey removed and forgotten. *)
Definition disarm (a : Application) : Application :=
  let a1 :=
    match _win_exclusive_esc a with
    | Some h => with_hook (Some (Hook.with_enabled false h)) a
    | None => a
    end in
  match _keyboard rt with
  | Some _ => with_hotkey_id None a1
  | None => a1
  end.

Definition disable_trace (a : Application) : list Event :=
  match _win_exclusive_esc a with
  | Some _ => [EscSetEnabled false]
  | None => []
  end ++
  match _keyboard rt, _exclusive_esc_hotkey_id a with
  | Some _, Some hid => [KeyboardRemoveHotkey hid]
  | _, _ => []
  end.

(** Nothing can swallow a key: the hook's flag is clear and no hotkey is
    registered. *)
Definition disarmed (a : Application) : bool :=
  match _win_exclusive_esc a with
  | Some h => negb (Hook._enabled h)
  | None => true
  end &&
  match _exclusive_esc_hotkey_id a with
  | Some _ => false
  | None => true
  end.

(** The hotkey callback [_on_esc] of the [keyboard] tier. *)
Definition keyboard_on_esc : aprog unit :=
  try_except (_disable_exclusive_esc ;; emit StopRequested) (ret tt).

(** [_enable_exclusive_esc_if_possible] *)
Definition _enable_exclusive_esc_if_possible : aprog unit :=
  if negb is_win32 then ret tt
  else
    a <- get ;;
    match _win_exclusive_esc a with
    | Some h => on_hook (Hook.set_enabled true) h
    | None =>
        match _keyboard rt with
        | None => ret tt
        | Some kb =>
            match _exclusive_esc_hotkey_id a with
            | Some _ => ret tt
            | None =>
                try_except
                  (emit KeyboardAddHotkey ;;
                   hid <- call (add_hotkey kb) ;;
                   modify (with_hotkey_id (Some hid)))
                  (emit (Print (py "[WARN] 启用独占 Esc 失败: ")) ;;
                   modify (with_hotkey_id None))
            end
        end
    end.

(** [_stop_windows_exclusive_esc] *)
Definition _stop_windows_exclusive_esc : aprog unit :=
  try_except
    (a <- get ;;
     match _win_exclusive_esc a with
     | Some h => on_hook (Hook.stop (sys_platform rt)) h
     | None => ret tt
     end)
    (ret tt).

(** The callback [_on_press] of the listener: [is_esc] tells whether
    the key is Esc, [now] is the clock and [running] what
    [worker.isRunning()] answers. *)
Definition _on_press (is_esc : bool) (now : Q) (running : outcome bool)
  : aprog unit :=
  try_except
    (if negb is_esc then ret tt
     else
       a <- get ;;
       if Qlt_bool (now - _global_esc_last_hit_ts a) (35 # 100) then ret tt
       else
         modify (with_global_last_hit_ts now) ;;
         r <- call running ;;
         when r (emit StopRequested))
    (ret tt).

(** [_setup_global_esc_to_stop_if_running] *)
Definition _setup_global_esc_to_stop_if_running : aprog unit :=
  if negb is_win32 then ret tt
  else
    match _pynput_keyboard rt with
    | None =>
        log_message (py "提示：未安装 keyboard/pynput，无法在切到其它窗口时用 Esc 中止；仍可点击“中止”按钮。")
    | Some kb =>
        try_except
          (emit ListenerStart ;;
           call (listener_start kb) ;;
           modify (with_listener (Some EscListener)) ;;
           emit AboutToQuitConnect ;;
           log_message (py "已启用全局 Esc 中止（降级模式）：阅卷中按 Esc 可停止，但 Esc 仍会传给其它程序。"))
          (emit (Print (py "[WARN] 启动全局 Esc 监听失败: ")))
    end.

(** [_setup_global_esc_support]; gives back what [start()] returned, when
    it was called. *)
Definition _setup_global_esc_support : aprog (option bool) :=
  if negb is_win32 then ret None
  else
    emit AboutToQuitConnect ;;
    emit AboutToQuitConnect ;;
    emit AboutToQuitConnect ;;
    started <-
      try_except
        (a <- get ;;
         match _win_exclusive_esc a with
         | Some h => on_hook (Hook.start (sys_platform rt)) h
         | None => call Raised
         end)
        (emit (Print (py "[WARN] 启动内置独占 Esc 失败: ")) ;; ret false) ;;
    if started then
      log_message (py "已启用独占 Esc（内置实现）：阅卷进行中按 Esc 会停止，且不会传给其它程序。") ;;
      ret (Some true)
    else
      match _keyboard rt with
      | Some _ =>
          log_message (py "已启用独占 Esc 中止：阅卷进行中按 Esc 会停止，且不会传给其它程序。") ;;
          ret (Some false)
      | None =>
          _setup_global_esc_to_stop_if_running ;; ret (Some false)
      end.

(** [_stop_global_esc_listener] *)
Definition _stop_global_esc_listener : aprog unit :=
  a <- get ;;
  match _global_esc_listener a with
  | Some _ => emit ListenerStop
  | None => ret tt
  end.

(** [show_completion_notification] *)
Definition show_completion_notification : aprog unit :=
  _disable_exclusive_esc ;;
  emit OnWorkerFinished ;;
  emit (ExecDialog completion_dialog) ;;
  restore_main_window.

(** The message of the dialog of [show_error_notification]. *)
Definition interruption_dialog (error_message : pystr) : Dialog :=
  let user_tip := _simplify_for_teacher (unicode_lower rt) error_message in
  SimpleNotificationDialog
    (py "阅卷中断")
    (py "原因：" ++ user_tip ++ newline ++ newline
       ++ py "建议：检查网络/密钥/模型ID；确认Excel已关闭；必要时切换备用AI平台。")
    (py "error").

(** The recovery shared by the two slots that report through
    [main_window.on_worker_error]. *)
Definition report_worker_error (label msg : pystr) : aprog unit :=
  if has_on_worker_error rt then emit (OnWorkerError msg)
  else
    emit (Print (label ++ msg)) ;;
    m <- isMinimized ;;
    when m (showNormal ;; emit ActivateWindow) ;;
    update_ui_state_not_running.

(** [show_error_notification]; [now] is what [time.time()] gives.  The
    signal carries a [str], so [str(error_message)] is the message; the
    guarded tests do not raise, so each [try] block runs to its end. *)
Definition show_error_notification (now : Q) (error_message : pystr)
  : aprog unit :=
  _disable_exclusive_esc ;;
  a <- get ;;
  if Qlt_bool now (_suppress_error_dialog_until a) then
    update_ui_state_not_running
  else if any_in keys_manual_review error_message then
    update_ui_state_not_running
  else if is_user_stop error_message then
    if has_on_worker_error rt then emit (OnWorkerError user_stop)
    else update_ui_state_not_running
  else
    report_worker_error
      (py "[ERROR] MainWindow missing on_worker_error. Error: ")
      error_message ;;
    emit (ExecDialog (interruption_dialog error_message)) ;;
    restore_main_window.

(** [show_threshold_exceeded_notification] *)
Definition show_threshold_exceeded_notification (reason : pystr)
  : aprog unit :=
  _disable_exclusive_esc ;;
  report_worker_error
    (py "[ERROR] MainWindow missing on_worker_error. Reason: ") reason ;;
  emit (ExecDialog threshold_dialog) ;;
  restore_main_window.

(** [show_manual_intervention_notification] *)
Definition show_manual_intervention_notification
    (now : Q) (message raw_feedback : pystr) : aprog unit :=
  _disable_exclusive_esc ;;
  modify (with_suppress_until (now + 2)) ;;
  m <- isMinimized ;;
  when m (showNormal ;; emit ActivateWindow) ;;
  update_ui_state_not_running ;;
  emit (ExecDialog (manual_intervention_dialog message raw_feedback)) ;;
  restore_main_window.

(** Whether the slot of an Error shows its dialog: outside the window
    opened by a manual intervention, and no pattern silences it. *)
Definition error_presented (a : Application) (now : Q) (msg : pystr)
  : bool :=
  negb (Qlt_bool now (_suppress_error_dialog_until a))
  && negb (any_in keys_manual_review msg)
  && negb (is_user_stop msg).

Definition presented (a : Application) (now : Q) (sig : TerminalSignal)
  : bool :=
  match sig with
  | Error msg => error_presented a now msg
  | _ => true
  end.


(** The slot of a signal alone. *)
Definition slot (now : Q) (sig : TerminalSignal) : aprog unit :=
  match sig with
  | Completed => show_completion_notification
  | Error message => show_error_notification now message
  | ThresholdExceeded reason => show_threshold_exceeded_notification reason
  | ManualIntervention message raw_feedback =>
      show_manual_intervention_notification now message raw_feedback
  end.

(** Delivery of one signal: the slots [connect_worker_signals] attached
    to it, in connection order (the worker has all four signals).  A
    dialog blocks its slot in a nested event loop, in which later signals
    are delivered; the decisions of a slot are all taken before its
    dialog opens, so deliveries are listed in the order their slots
    start. *)
Definition deliver (now : Q) (sig : TerminalSignal) : aprog unit :=
  match sig with
  | Completed => _disable_exclusive_esc ;; show_completion_notification
  | _ => slot now sig ;; _disable_exclusive_esc
  end.

(** Delivery of the signals of one run, each with the clock reading of
    its slot. *)
Fixpoint run_signals (sigs : list (Q * TerminalSignal)) : aprog unit :=
  match sigs with
  | [] => ret tt
  | (now, sig) :: rest => deliver now sig ;; run_signals rest
  end.

(** ** The subsystem in its surroundings

    What can happen to the subsystem, one step at a time: the calls the
    application makes on its UI thread, the two halves of
    [_thread_main] on the hook thread, and key events offered by the
    platform. *)

Inductive Op : Type :=
| OpSetup                                 (* [_setup_global_esc_support] *)
| OpStart                                 (* [_win_exclusive_esc.start()] *)
| OpEnable                                (* [worker.started] *)
| OpDisable                               (* [_disable_exclusive_esc] *)
| OpStop                                  (* [_stop_windows_exclusive_esc] *)
| OpStopListener                          (* [_stop_global_esc_listener] *)
| OpSignal (now : Q) (sig : TerminalSignal)
| OpHookThreadEnter (tid hhook : Z)
| OpHookThreadLeave
| OpKey (k : Hook.KeyEvent)
| OpWindowMinimized (b : bool).

(** What a step lets its caller or the platform observe. *)
Inductive Obs : Type :=
| Done
| StartReturned (b : bool)
| KeySwallowed
| KeyForwarded.

(** What the listener of [pynput] does with a key that reaches it: it
    runs [_on_press] on key-downs and never swallows. *)
Definition listen_key (k : Hook.KeyEvent) : aprog Obs :=
  a <- get ;;
  match _global_esc_listener a with
  | Some _ =>
      _on_press (Hook.is_esc_keydown k) (Hook.now (Hook.env k))
        (Hook.should_swallow (Hook.env k)) ;;
      ret KeyForwarded
  | None => ret KeyForwarded
  end.

(** The platform's side of a key event: the low-level callback runs
    when, and only when, a hook is installed; a hotkey registered with
    [suppress=True] swallows Esc and runs its callback; a key that is
    not swallowed reaches the listener of [pynput], when there is one,
    and then the other applications. *)
Definition dispatch_key (k : Hook.KeyEvent) : aprog Obs :=
  a <- get ;;
  native <-
    match _win_exclusive_esc a with
    | Some h =>
        if Hook.handle_truthy (Hook._hook_handle h)
        then on_hook (Hook._hook_proc (Hook.env k) (Hook.nCode k)
                        (Hook.wParam k)) h
        else ret Hook.CallNext
    | None => ret Hook.CallNext
    end ;;
  match native with
  | Hook.Swallow => ret KeySwallowed
  | Hook.CallNext =>
      a <- get ;;
      match _exclusive_esc_hotkey_id a with
      | Some _ =>
          if Hook.is_esc_keydown k then keyboard_on_esc ;; ret KeySwallowed
          else listen_key k
      | None => listen_key k
      end
  end.

Definition hook_thread_started (a : Application) : bool :=
  match _win_exclusive_esc a with
  | Some h => match Hook._thread h with Some _ => true | None => false end
  | None => false
  end.

Definition exec_op (op : Op) : aprog Obs :=
  match op with
  | OpSetup => _setup_global_esc_support ;; ret Done
  | OpStart =>
      a <- get ;;
      match _win_exclusive_esc a with
      | Some h =>
          b <- on_hook (Hook.start (sys_platform rt)) h ;;
          ret (StartReturned b)
      | None => ret Done
      end
  | OpEnable => _enable_exclusive_esc_if_possible ;; ret Done
  | OpDisable => _disable_exclusive_esc ;; ret Done
  | OpStop => _stop_windows_exclusive_esc ;; ret Done
  | OpStopListener => _stop_global_esc_listener ;; ret Done
  | OpSignal now sig => deliver now sig ;; ret Done
  | OpHookThreadEnter tid hhook =>
      a <- get ;;
      match _win_exclusive_esc a with
      | Some h =>
          if hook_thread_started a
          then on_hook (Hook._thread_main_enter tid hhook) h ;; ret Done
          else ret Done
      | None => ret Done
      end
  | OpHookThreadLeave =>
      a <- get ;;
      match _win_exclusive_esc a with
      | Some h =>
          if hook_thread_started a
          then on_hook Hook._thread_main_leave h ;; ret Done
          else ret Done
      | None => ret Done
      end
  | OpKey k => dispatch_key k
  | OpWindowMinimized b => modify (with_minimized b) ;; ret Done
  end.

Fixpoint run_ops (ops : list Op) : aprog (list Obs) :=
  match ops with
  | [] => ret []
  | op :: rest =>
      o <- exec_op op ;;
      os <- run_ops rest ;;
      ret (o :: os)
  end.
End WithRuntime.

End App.

Import App.

(** Two run-time environments: Windows without the optional modules, and
    a platform without the native hook and without the [keyboard] module;
    the main window has all its methods. *)
Definition windows_runtime : Runtime :=
  {| sys_platform := "win32"; _keyboard := None; _pynput_keyboard := None;
     has_log_message := true; has_on_worker_error := true;
     has_update_ui_state := true; unicode_lower := uncased_lower |}.

Definition linux_runtime : Runtime :=
  {| sys_platform := "linux"; _keyboard := None; _pynput_keyboard := None;
     has_log_message := true; has_on_worker_error := true;
     has_update_ui_state := true; unicode_lower := uncased_lower |}.

(* ------------------------------------------------------------------ *)
(** * The two dialogs *)

Module Dialogs.

(** [s.replace(old, new)] for a non-empty [old]: occurrences are taken
    from the left and do not overlap; [skip] counts the code points of an
    occurrence still to be passed over. *)
Fixpoint replace_from (skip : nat) (old new s : pystr) : pystr :=
  match s with
  | [] => []
  | c :: r =>
      match skip with
      | S k => replace_from k old new r
      | O =>
          if startswith old s
          then new ++ replace_from (List.length old - 1) old new r
          else c :: replace_from 0 old new r
      end
  end.

Definition replace (old new s : pystr) : pystr := replace_from 0 old new s.

Definition CR : N := 13.
Definition LF : N := 10.

Definition no_feedback : pystr := Eval vm_compute in py "(无)".

(** The summary of the raw feedback that [ManualInterventionDialog.setup_ui]
    shows; [raw_feedback] is the constructor's argument, [None] included. *)
Definition feedback_preview (raw_feedback : option pystr) : pystr :=
  let raw := match raw_feedback with Some s => s | None => [] end in
  let preview := strip raw in
  match preview with
  | [] => no_feedback
  | _ :: _ =>
      let preview := replace [CR] [LF] (replace [CR; LF] [LF] preview) in
      slice_to 200 preview
        ++ (if (200 <? List.length preview)%nat then ellipsis else [])
  end.

(** Calls into [winsound]. *)
Inductive SoundEvent : Type :=
| Beep (frequency duration : Z)
| MessageBeep.

(** What [winsound] answers: the outcome of the [n]-th [Beep] of one run
    of [play_system_sound], and the outcome of [MessageBeep(-1)]. *)
Record Winsound : Type := {
  beep : nat -> outcome unit;
  message_beep : outcome unit
}.

Definition sprog := prog unit SoundEvent.

Section WithWinsound.
Variable ws : Winsound.

Definition do_beep (n : nat) (frequency duration : Z) : sprog unit :=
  emit (Beep frequency duration) ;; call (beep ws n).

(** The [except] branch shared by both dialogs. *)
Definition fallback_beep : sprog unit :=
  try_except (emit MessageBeep ;; call (message_beep ws)) (ret tt).

(** [SimpleNotificationDialog.play_system_sound] *)
Definition simple_play_system_sound (sound_type_is_error : bool)
  : sprog unit :=
  try_except
    (if sound_type_is_error
     then do_beep 0 1000 300 ;; do_beep 1 1000 300
     else do_beep 0 800 200)
    fallback_beep.

(** [ManualInterventionDialog.play_system_sound] *)
Definition manual_play_system_sound : sprog unit :=
  try_except
    (do_beep 0 1000 250 ;; do_beep 1 1000 250 ;; do_beep 2 1000 250)
    fallback_beep.
End WithWinsound.

Definition is_beep (e : SoundEvent) : bool :=
  match e with Beep _ _ => true | MessageBeep => false end.

Definition is_message_beep (e : SoundEvent) : bool :=
  match e with MessageBeep => true | Beep _ _ => false end.

End Dialogs.

(* ------------------------------------------------------------------ *)
(** * The hook thread as a whole *)

(** [_thread_main] from its first line to the end of its [finally]
    block, for a message loop that ends ([GetMessageW] gives 0 after
    [stop()] posted [WM_QUIT]). *)
Definition _thread_main (tid hhook : Z) : Hook.hprog unit :=
  entered <- Hook._thread_main_enter tid hhook ;;
  if entered then Hook._thread_main_leave else ret tt.

Definition is_unhook (e : Event) : bool :=
  match e with UnhookWindowsHookEx => true | _ => false end.


(** No key can be swallowed: the hook object holds no usable handle and
    no hotkey is registered. *)
Definition unhooked (a : Application) : Prop :=
  (exists h, _win_exclusive_esc a = Some h
             /\ Hook.handle_truthy (Hook._hook_handle h) = false)
  /\ _exclusive_esc_hotkey_id a = None.

Definition is_thread_enter (op : Op) : bool :=
  match op with OpHookThreadEnter _ _ => true | _ => false end.


(* ------------------------------------------------------------------ *)
(** * [SignalConnectionManager] *)

Module Signals.

(** A signal and a slot, each known by its [id()]; the objects recorded
    in [connections] stay alive, so equal ids mean the same objects. *)
Definition Connection : Type := (nat * nat)%type.

Definition same_key (c d : Connection) : bool :=
  (fst c =? fst d)%nat && (snd c =? snd d)%nat.

(** How a call of [signal.disconnect(slot)] ends. *)
Inductive DisconnectResult : Type :=
| Disconnected
| NotConnected        (* [TypeError] or [RuntimeError] *)
| DisconnectFault.    (* any other exception *)

(** What Qt answers. *)
Record Qt : Type := {
  disconnect_result : Connection -> DisconnectResult;
  connect_result : Connection -> outcome unit
}.

Inductive QtEvent : Type :=
| QtDisconnect (c : Connection)
| QtConnect (c : Connection)
| PrintConnectFailed                      (* [print("[警告] 信号连接失败: ...")] *)
| PrintSummary (disconnected failed : nat).

(** The object is its list [connections]. *)
Definition mprog := prog (list Connection) QtEvent.

Section WithQt.
Variable qt : Qt.

(** [connect]; the argument [connection_type] is not used by the code. *)
Definition connect (c : Connection) : mprog unit :=
  connections <- get ;;
  if existsb (same_key c) connections then ret tt
  else
    emit (QtDisconnect c) ;;
    match disconnect_result qt c with
    | DisconnectFault => call Raised
    | _ => ret tt
    end ;;
    try_except
      (emit (QtConnect c) ;;
       call (connect_result qt c) ;;
       modify (fun l => l ++ [c]))
      (emit PrintConnectFailed).

(** The loop of [disconnect_all] over the connections still to visit,
    with the two counters. *)
Fixpoint disconnect_each (todo : list Connection) (disconnected failed : nat)
  : mprog (nat * nat) :=
  match todo with
  | [] => ret (disconnected, failed)
  | c :: rest =>
      emit (QtDisconnect c) ;;
      match disconnect_result qt c with
      | Disconnected => disconnect_each rest (S disconnected) failed
      | NotConnected => disconnect_each rest disconnected (S failed)
      | DisconnectFault => call Raised
      end
  end.

(** [disconnect_all] *)
Definition disconnect_all : mprog unit :=
  connections <- get ;;
  counts <- disconnect_each connections 0 0 ;;
  modify (fun _ => []) ;;
  when (0 <? snd counts)%nat (emit (PrintSummary (fst counts) (snd counts))).
End WithQt.

Definition is_qt_disconnect (e : QtEvent) : bool :=
  match e with QtDisconnect _ => true | _ => false end.

Definition no_fault (qt : Qt) (l : list Connection) : bool :=
  forallb (fun c => match disconnect_result qt c with
                    | DisconnectFault => false
                    | _ => true
                    end) l.

End Signals.


(* ------------------------------------------------------------------ *)
(** * The rows of the Excel record *)

Module Records.

Definition UNDERSCORE : N := 95.

(** [s.split(sep)] for a separator of one code point. *)
Fixpoint split_on (sep : N) (s : pystr) : list pystr :=
  match s with
  | [] => [[]]
  | c :: r =>
      if (c =? sep)%N then [] :: split_on sep r
      else match split_on sep r with
           | f :: fs => (c :: f) :: fs
           | [] => [[c]]
           end
  end.

(** [formatted_summary_time] of [_save_summary_record]; indexing the
    fields raises [IndexError] when there is no second field. *)
Definition formatted_summary_time (timestamp_raw : pystr) : outcome pystr :=
  if contains [UNDERSCORE] timestamp_raw then
    match nth_error (split_on UNDERSCORE timestamp_raw) 1 with
    | Some time_part =>
        if (List.length time_part =? 6)%nat then
          Returned (firstn 2 time_part ++ py "点"
                      ++ firstn 2 (skipn 2 time_part) ++ py "分"
                      ++ firstn 2 (skipn 4 time_part) ++ py "秒")
        else Returned time_part
    | None => Raised
    end
  else Returned timestamp_raw.



(** What [_save_summary_record] reads from [record_data], each value as
    the text Python renders for it, defaults applied; [interrupt_reason]
    is empty when the key is missing or its value is falsy. *)
Record SummaryRecord : Type := {
  completion_status : pystr;
  interrupt_reason : pystr;
  timestamp : pystr;
  total_questions_attempted : pystr;
  questions_completed : pystr;
  total_elapsed_time_seconds : pystr;    (* rendered with [:.2f] *)
  dual_evaluation_enabled : bool;
  first_model_id : pystr;
  second_model_id : pystr
}.





Section WithCells.
(** The text Python renders for a key of [record_data], default applied. *)
Variable cell : string -> pystr.

End WithCells.

End Records.

(* ------------------------------------------------------------------ *)
(** * The global exception hook
      [Application._setup_global_exception_hook.handle_exception] *)

Module ExcHook.

(** Calls made by [handle_exception]. *)
Inductive HookEvent : Type :=
| DefaultExcepthook                    (* [sys.__excepthook__(...)] *)
| OpenLogFile (name : pystr)           (* [open(log_file, 'w', ...)] *)
| WriteLogFile (text : pystr)          (* [f.write(error_msg)] *)
| PrintLine (msg : pystr)
| UiLogMessage (msg : pystr) (is_error : bool)
| ExecFatalDialog (d : Dialog).

(** What the surroundings answer during one call of the hook.  The hook
    is entered with an exception whose traceback
    [traceback.format_exception] renders as [error_msg]. *)
Record Env : Type := {
  is_keyboard_interrupt : bool;   (* [issubclass(exc_type, KeyboardInterrupt)] *)
  error_msg : pystr;
  (** [log_file.name] when the directory is made and the path built, or
      the failure of one of these steps *)
  log_file_name : outcome pystr;
  open_result : outcome unit;
  write_result : outcome unit;    (* [f.write], and closing the file *)
  (** [hasattr(self, 'main_window') and hasattr(self.main_window, 'log_message')] *)
  has_log_message : bool;
  log_message_result : outcome unit;
  str_exc_value : outcome pystr;  (* [str(exc_value)] *)
  dialog_created : outcome unit;  (* [SimpleNotificationDialog(...)] *)
  exec_result : outcome unit      (* [dialog.exec_()] *)
}.

(** The state is the local variable [log_file], holding the name of the
    path once it is assigned. *)
Definition hprog := prog (option pystr) HookEvent.

(** The line printed when the log cannot be written, without the text of
    the caught exception. *)
Definition msg_log_failed : pystr := Eval vm_compute in
  py "写入全局异常日志失败: ".

Definition msg_fatal : pystr := Eval vm_compute in py "严重错误: ".

Definition ui_base : pystr := Eval vm_compute in
  py "程序内部错误，已停止当前操作。".

Definition saved_open : pystr := Eval vm_compute in py "（已保存日志：".
Definition saved_close : pystr := Eval vm_compute in py "）".

Definition ui_msg (log_file : option pystr) : pystr :=
  match log_file with
  | Some name => ui_base ++ saved_open ++ name ++ saved_close
  | None => ui_base
  end.

Definition fatal_title : pystr := Eval vm_compute in py "严重错误".
Definition fatal_head : pystr := Eval vm_compute in
  py "程序遇到严重问题，可能需要关闭并重新打开。".
Definition fatal_reason : pystr := Eval vm_compute in py "原因（简要）：".
Definition fatal_tail : pystr := Eval vm_compute in
  py "如果反复出现：请把程序目录 logs 文件夹里的最新日志发给技术人员。".
Definition sound_error : pystr := Eval vm_compute in py "error".

Definition fatal_dialog (user_tip : pystr) : Dialog :=
  SimpleNotificationDialog
    fatal_title
    (fatal_head ++ newline ++ newline
       ++ fatal_reason ++ user_tip ++ newline ++ newline
       ++ fatal_tail)
    sound_error.

Section WithEnv.
Variable unicode_lower : pystr -> N -> pystr -> pystr.
Variable env : Env.

(** The first [try]: the stack goes to a log file. *)
Definition write_log : hprog unit :=
  try_except
    (name <- call (log_file_name env) ;;
     modify (fun _ => Some name) ;;
     emit (OpenLogFile name) ;;
     call (open_result env) ;;
     emit (WriteLogFile (error_msg env)) ;;
     call (write_result env))
    (emit (PrintLine msg_log_failed)).

(** The second [try]: one line for the log panel of the window. *)
Definition tell_ui : hprog unit :=
  try_except
    (when (has_log_message env)
       (log_file <- get ;;
        emit (UiLogMessage (ui_msg log_file) true) ;;
        call (log_message_result env)))
    (ret tt).

(** The third [try]: the dialog; its [except] branch formats
    [exc_value] again, which calls [str(exc_value)] again. *)
Definition show_fatal : hprog unit :=
  try_except
    (text <- call (str_exc_value env) ;;
     let user_tip := _simplify_for_teacher unicode_lower text in
     call (dialog_created env) ;;
     emit (ExecFatalDialog (fatal_dialog user_tip)) ;;
     call (exec_result env))
    (text <- call (str_exc_value env) ;;
     emit (PrintLine (msg_fatal ++ text))).

Definition handle_exception : hprog unit :=
  if is_keyboard_interrupt env then emit DefaultExcepthook
  else
    modify (fun _ => None) ;;
    write_log ;;
    tell_ui ;;
    show_fatal.

End WithEnv.

Definition is_fatal_dialog (e : HookEvent) : bool :=
  match e with ExecFatalDialog _ => true | _ => false end.

Definition is_log_write (e : HookEvent) : bool :=
  match e with WriteLogFile _ => true | _ => false end.

End ExcHook.

(** A run of the hook in which the log directory exists but the log file
    cannot be opened, and the dialog cannot be built. *)
Definition unwritable_log_env : ExcHook.Env :=
  {| ExcHook.is_keyboard_interrupt := false;
     ExcHook.error_msg := py "Traceback (most recent call last): ...";
     ExcHook.log_file_name := Returned (py "global_error_20250920.log");
     ExcHook.open_result := Raised;
     ExcHook.write_result := Returned tt;
     ExcHook.has_log_message := true;
     ExcHook.log_message_result := Returned tt;
     ExcHook.str_exc_value := Returned (py "Connection timed out");
     ExcHook.dialog_created := Raised;
     ExcHook.exec_result := Returned tt |}.

(* ------------------------------------------------------------------ *)
(** * The directory of a record [Application._get_excel_filepath] *)

Module Paths.

(** [date_str], the name of the day's directory under the record
    directory; [today] is what [now.strftime('%Y年%m月%d日')] gives. *)
Definition date_str (timestamp_str today : pystr) : outcome pystr :=
  if contains [Records.UNDERSCORE] timestamp_str then
    match nth_error (Records.split_on Records.UNDERSCORE timestamp_str) 0 with
    | Some date => Returned date
    | None => Raised
    end
  else Returned today.

End Paths.

(** The summary of a batch of three questions, stopped by an error. *)
Definition interrupted_summary : Records.SummaryRecord :=
  {| Records.completion_status := py "error";
     Records.interrupt_reason := py "网络超时";
     Records.timestamp := py "2025年09月20日_101530";
     Records.total_questions_attempted := py "3";
     Records.questions_completed := py "2";
     Records.total_elapsed_time_seconds := py "12.50";
     Records.dual_evaluation_enabled := true;
     Records.first_model_id := py "model-a";
     Records.second_model_id := py "model-b" |}.

(* ================================================================== *)
(** * Properties *)

Unset Implicit Arguments.

(** ** Python strings *)

Section PyStrFacts.
Variable unicode_lower : pystr -> N -> pystr -> pystr.

Lemma lstrip_blank (s : pystr) :
  forallb is_whitespace s = true -> lstrip s = [].
Proof.
  induction s as [|c r IH]; simpl; [reflexivity|].
  intros H. apply andb_true_iff in H as [Hc Hr].
  rewrite Hc. auto.
Qed.

Lemma strip_blank (s : pystr) :
  forallb is_whitespace s = true -> strip s = [].
Proof.
  intros H. unfold strip, rstrip. rewrite (lstrip_blank s H). reflexivity.
Qed.

Lemma lstrip_app_solid (a r : pystr) (c : N) :
  is_whitespace c = false -> lstrip (a ++ c :: r) = lstrip a ++ c :: r.
Proof.
  intros Hc. induction a as [|d a IH]; simpl.
  - rewrite Hc. reflexivity.
  - destruct (is_whitespace d); [exact IH | reflexivity].
Qed.

Lemma rstrip_app_solid (a r : pystr) (c : N) :
  is_whitespace c = false -> rstrip (a ++ c :: r) = a ++ c :: rstrip r.
Proof.
  intros Hc. unfold rstrip.
  rewrite rev_app_distr. simpl rev. rewrite <- app_assoc. simpl app.
  rewrite (lstrip_app_solid (rev r) (rev a) c Hc).
  rewrite rev_app_distr. simpl. rewrite rev_involutive, <- app_assoc.
  reflexivity.
Qed.

Lemma strip_keeps_infix (x v y : pystr) :
  solid_ends v = true ->
  strip (x ++ v ++ y) = lstrip x ++ v ++ rstrip y.
Proof.
  intros Hv.
  assert (Hhead : exists c v', v = c :: v' /\ is_whitespace c = false).
  { destruct v as [|c v']; [discriminate|]. exists c, v'.
    simpl in Hv. apply andb_true_iff in Hv as [Hc _].
    apply negb_true_iff in Hc. auto. }
  assert (Hlast : exists m d, v = m ++ [d] /\ is_whitespace d = false).
  { destruct v as [|c v']; [discriminate|].
    assert (Hne : c :: v' <> []) by discriminate.
    destruct (exists_last Hne) as [m [d Hm]]. exists m, d.
    split; [exact Hm|].
    unfold solid_ends in Hv. apply andb_true_iff in Hv as [_ Hl].
    apply negb_true_iff in Hl. rewrite Hm, last_last in Hl. exact Hl. }
  destruct Hhead as [c [v' [E1 Hc]]]. destruct Hlast as [m [d [E2 Hd]]].
  assert (L : lstrip (x ++ v ++ y) = lstrip x ++ v ++ y).
  { rewrite E1. simpl. apply lstrip_app_solid. exact Hc. }
  assert (R : rstrip (lstrip x ++ v ++ y) = lstrip x ++ v ++ rstrip y).
  { rewrite E2, <- !app_assoc. simpl. rewrite app_assoc.
    rewrite (rstrip_app_solid (lstrip x ++ m) y d Hd).
    rewrite <- app_assoc. reflexivity. }
  unfold strip. rewrite L. exact R.
Qed.

Lemma startswith_app (k y : pystr) : startswith k (k ++ y) = true.
Proof.
  induction k as [|a k IH]; simpl; [reflexivity|].
  rewrite N.eqb_refl. exact IH.
Qed.

Lemma contains_infix (k x y : pystr) : contains k (x ++ k ++ y) = true.
Proof.
  induction x as [|a x IH]; simpl app.
  - destruct (k ++ y) eqn:E; simpl; rewrite <- E, startswith_app; reflexivity.
  - simpl. rewrite IH. apply orb_true_r.
Qed.

Lemma lower_from_app (b x y : pystr) :
  exists p, lower_from unicode_lower b (x ++ y)
            = p ++ lower_from unicode_lower (b ++ x) y.
Proof.
  revert b. induction x as [|c x IH]; intros b; simpl.
  - exists []. rewrite app_nil_r. reflexivity.
  - destruct (IH (b ++ [c])) as [p Hp].
    exists (lower_char unicode_lower b c (x ++ y) ++ p).
    rewrite Hp, <- !app_assoc. reflexivity.
Qed.

Lemma lower_from_ascii (b v y : pystr) :
  is_ascii v = true ->
  lower_from unicode_lower b (v ++ y)
  = List.map ascii_lower v ++ lower_from unicode_lower (b ++ v) y.
Proof.
  revert b. induction v as [|c v IH]; intros b Hv; simpl.
  - rewrite app_nil_r. reflexivity.
  - simpl in Hv. apply andb_true_iff in Hv as [Hc Hv].
    unfold lower_char at 1. rewrite Hc. simpl.
    rewrite (IH (b ++ [c]) Hv), <- app_assoc. reflexivity.
Qed.

Lemma ascii_lower_ascii (c : N) :
  (ascii_lower c <? 128)%N = true -> (c <? 128)%N = true.
Proof.
  unfold ascii_lower.
  destruct ((65 <=? c) && (c <=? 90))%N eqn:E; [|auto].
  intros _. apply andb_true_iff in E as [_ E].
  apply N.leb_le in E. apply N.ltb_lt. lia.
Qed.

Lemma case_variant_ascii (k v : pystr) :
  case_variant_of k v -> is_ascii k = true -> is_ascii v = true.
Proof.
  unfold case_variant_of. intros <-. induction v as [|c v IH]; simpl; auto.
  intros H. apply andb_true_iff in H as [Hc Hv].
  rewrite (ascii_lower_ascii c Hc). auto.
Qed.

Lemma is_whitespace_printable (c : N) :
  (33 <= c)%N -> (c < 133)%N -> is_whitespace c = false.
Proof.
  intros Hlo Hhi. unfold is_whitespace.
  replace (c <=? 13)%N with false by (symmetry; apply N.leb_gt; lia).
  replace (c <=? 32)%N with false by (symmetry; apply N.leb_gt; lia).
  replace (8192 <=? c)%N with false by (symmetry; apply N.leb_gt; lia).
  replace (c =? 133)%N with false by (symmetry; apply N.eqb_neq; lia).
  replace (c =? 160)%N with false by (symmetry; apply N.eqb_neq; lia).
  replace (c =? 5760)%N with false by (symmetry; apply N.eqb_neq; lia).
  replace (c =? 8232)%N with false by (symmetry; apply N.eqb_neq; lia).
  replace (c =? 8233)%N with false by (symmetry; apply N.eqb_neq; lia).
  replace (c =? 8239)%N with false by (symmetry; apply N.eqb_neq; lia).
  replace (c =? 8287)%N with false by (symmetry; apply N.eqb_neq; lia).
  replace (c =? 12288)%N with false by (symmetry; apply N.eqb_neq; lia).
  rewrite !andb_false_r. reflexivity.
Qed.

Lemma is_whitespace_ascii_lower (c : N) :
  is_whitespace (ascii_lower c) = is_whitespace c.
Proof.
  unfold ascii_lower.
  destruct ((65 <=? c) && (c <=? 90))%N eqn:E; [|reflexivity].
  apply andb_true_iff in E as [E1 E2].
  apply N.leb_le in E1. apply N.leb_le in E2.
  rewrite !is_whitespace_printable by lia. reflexivity.
Qed.

Lemma solid_ends_case_variant (k v : pystr) :
  case_variant_of k v -> solid_ends k = solid_ends v.
Proof.
  unfold case_variant_of. intros <-.
  destruct v as [|c v]; [reflexivity|].
  assert (Hl : forall (w : pystr) d,
             last (List.map ascii_lower w) (ascii_lower d)
             = ascii_lower (last w d)).
  { induction w as [|e w IH]; intros d; [reflexivity|].
    destruct w; [reflexivity|]. exact (IH d). }
  unfold solid_ends.
  change (List.map ascii_lower (c :: v)) with
    (ascii_lower c :: List.map ascii_lower v) at 1.
  cbv iota.
  change 0%N with (ascii_lower 0) at 1.
  rewrite Hl, !is_whitespace_ascii_lower. reflexivity.
Qed.

(** An occurrence of an ASCII pattern in any letter case is found in the
    lower-cased, stripped text. *)
Lemma contains_case_variant (k v x y : pystr) :
  is_ascii k = true -> solid_ends k = true -> case_variant_of k v ->
  contains k (lower unicode_lower (strip (x ++ v ++ y))) = true.
Proof.
  intros Hk Hs Hv.
  rewrite strip_keeps_infix
    by (rewrite <- (solid_ends_case_variant k v Hv); exact Hs).
  unfold lower.
  destruct (lower_from_app [] (lstrip x) (v ++ rstrip y)) as [p Hp].
  rewrite Hp.
  rewrite lower_from_ascii by (exact (case_variant_ascii k v Hv Hk)).
  rewrite Hv. apply contains_infix.
Qed.
End PyStrFacts.

(** ** The classifier *)

Lemma ascii_patterns_solid :
  forallb (fun row =>
             forallb (fun k => implb (is_ascii k) (solid_ends k)) (fst row))
          priority_table = true.
Proof. vm_compute. reflexivity. Qed.

Lemma generic_echo_length (t : pystr) : (List.length (generic_echo t) <= 87)%nat.
Proof.
  unfold generic_echo, slice_to. rewrite !length_app, length_firstn.
  change (List.length generic_prefix) with 6%nat.
  pose proof (Nat.le_min_l 80 (List.length t)) as Hmin.
  destruct (80 <? List.length t)%nat;
    [change (List.length ellipsis) with 1%nat
    |change (List.length (@nil N)) with 0%nat]; lia.
Qed.

Lemma generic_echo_short (t : pystr) :
  (List.length t <= 80)%nat -> generic_echo t = generic_prefix ++ t.
Proof.
  intros H. unfold generic_echo, slice_to.
  rewrite firstn_all2 by exact H.
  replace (80 <? List.length t)%nat with false
    by (symmetry; apply Nat.ltb_ge; exact H).
  rewrite app_nil_r. reflexivity.
Qed.

Lemma generic_echo_long (t : pystr) :
  (80 < List.length t)%nat ->
  generic_echo t = generic_prefix ++ firstn 80 t ++ ellipsis.
Proof.
  intros H. unfold generic_echo, slice_to.
  replace (80 <? List.length t)%nat with true
    by (symmetry; apply Nat.ltb_lt; exact H).
  reflexivity.
Qed.

Lemma simplify_is_first_match ul (text : pystr) :
  _simplify_for_teacher ul text =
  match first_match (lower ul (strip text)) with
  | Some row => snd row
  | None => match strip text with
            | [] => msg_no_reason
            | _ :: _ => generic_echo (strip text)
            end
  end.
Proof.
  unfold _simplify_for_teacher, first_match, priority_table.
  cbv zeta. cbn [find fst snd].
  repeat match goal with
  | |- context [if any_in ?ks ?low then _ else _] =>
      destruct (any_in ks low); [reflexivity|]
  end.
  reflexivity.
Qed.

Lemma any_in_case_variant ul (ks : list pystr) (m k v x y : pystr) :
  In (ks, m) priority_table -> In k ks -> is_ascii k = true ->
  case_variant_of k v ->
  any_in ks (lower ul (strip (x ++ v ++ y))) = true.
Proof.
  intros Hrow Hk Ha Hv.
  pose proof ascii_patterns_solid as Hs.
  rewrite forallb_forall in Hs. specialize (Hs _ Hrow). simpl in Hs.
  rewrite forallb_forall in Hs. specialize (Hs _ Hk).
  rewrite Ha in Hs. simpl in Hs.
  unfold any_in. apply existsb_exists. exists k. split; [exact Hk|].
  apply contains_case_variant; assumption.
Qed.


Lemma simplify_timed_out ul (v x y : pystr) :
  case_variant_of connection_timed_out v ->
  _simplify_for_teacher ul (x ++ v ++ y) = msg_timeout.
Proof.
  intros Hv. unfold case_variant_of in Hv.
  change connection_timed_out
    with (py "connection " ++ py "timed out" ++ py " after 30s") in Hv.
  apply map_eq_app in Hv as [v1 [v23 [-> [_ Hv]]]].
  apply map_eq_app in Hv as [v2 [v3 [-> [Hv2 _]]]].
  assert (H : any_in keys_timeout
                (lower ul (strip ((x ++ v1) ++ v2 ++ (v3 ++ y)))) = true).
  { apply (any_in_case_variant ul keys_timeout msg_timeout (py "timed out")).
    - left. reflexivity.
    - left. reflexivity.
    - reflexivity.
    - exact Hv2. }
  rewrite <- !app_assoc in H.
  unfold _simplify_for_teacher. cbv zeta.
  rewrite <- !app_assoc. rewrite H. reflexivity.
Qed.

(** C4, as amended.  The classifier is a function of the message alone.
    Its result is the message of the first row of the priority table
    (timeout, invalid key, quota or forbidden, rate limit, upstream
    unavailable, file locked) one of whose patterns occurs in the stripped,
    lower-cased message; an occurrence of an ASCII pattern is found
    whatever its letter case and whatever surrounds it.  When no pattern
    occurs and the stripped message is not empty, the result is the fixed
    prefix followed by the first 80 code points of the stripped message,
    followed by the ellipsis exactly when the message is longer than 80;
    when it is empty the result is the no-reason message.  A message that
    contains "Connection timed out after 30s" in any letter case is
    classified as a timeout. *)
Theorem simplify_for_teacher_priority ul :
  (forall text,
     _simplify_for_teacher ul text =
     match first_match (lower ul (strip text)) with
     | Some row => snd row
     | None => match strip text with
               | [] => msg_no_reason
               | _ :: _ => generic_echo (strip text)
               end
     end)
  /\ (forall ks m k v x y,
        In (ks, m) priority_table -> In k ks -> is_ascii k = true ->
        case_variant_of k v ->
        any_in ks (lower ul (strip (x ++ v ++ y))) = true)
  /\ (forall t,
        (List.length (generic_echo t) <= 87)%nat
        /\ ((List.length t <= 80)%nat -> generic_echo t = generic_prefix ++ t)
        /\ ((80 < List.length t)%nat ->
            generic_echo t = generic_prefix ++ firstn 80 t ++ ellipsis))
  /\ (forall v x y,
        case_variant_of connection_timed_out v ->
        _simplify_for_teacher ul (x ++ v ++ y) = msg_timeout).
Proof.
  split; [exact (simplify_is_first_match ul)|].
  split; [exact (any_in_case_variant ul)|].
  split; [|exact (simplify_timed_out ul)].
  intros t. split; [apply generic_echo_length|].
  split; [apply generic_echo_short | apply generic_echo_long].
Qed.

Lemma simplify_for_teacher_priority_witness :
  _simplify_for_teacher uncased_lower
    (py "HTTP 503: " ++ py "CONNECTION Timed Out After 30S" ++ py " (quota)")
  = msg_timeout.
Proof.
  apply (proj2 (proj2 (proj2 (simplify_for_teacher_priority uncased_lower)))).
  vm_compute. reflexivity.
Defined.

(** C4 as stated fails on the empty message: no pattern occurs in it, yet
    the result is not the truncated echo; it does not even begin with the
    prefix of the echo. *)
Lemma simplify_empty_is_not_an_echo :
  first_match (lower uncased_lower (strip (py ""))) = None
  /\ _simplify_for_teacher uncased_lower (py "") <> generic_echo (strip (py ""))
  /\ _simplify_for_teacher uncased_lower (py "") <> generic_echo (py "")
  /\ startswith generic_prefix (_simplify_for_teacher uncased_lower (py ""))
     = false.
Proof.
  repeat split; try (vm_compute; reflexivity); vm_compute; discriminate.
Qed.

Lemma no_reason_is_not_an_echo (t : pystr) : msg_no_reason <> generic_echo t.
Proof.
  unfold generic_echo. intros H.
  assert (E : firstn 6 msg_no_reason
              = firstn 6 (generic_prefix ++ slice_to 80 t
                          ++ (if (80 <? List.length t)%nat
                              then ellipsis else []))).
  { rewrite <- H. reflexivity. }
  change (generic_prefix ++ ?r) with
    (firstn 6 generic_prefix ++ (skipn 6 generic_prefix ++ r)) in E.
  vm_compute in E. discriminate E.
Qed.

(** C10.  A message that is empty or all white space gets the fixed
    no-reason message, which is neither a truncated echo nor the message
    of any pattern category. *)
Theorem simplify_blank_no_reason ul (text : pystr) :
  forallb is_whitespace text = true ->
  _simplify_for_teacher ul text = msg_no_reason
  /\ (forall t, msg_no_reason <> generic_echo t)
  /\ ~ In msg_no_reason (List.map snd priority_table).
Proof.
  intros H. split; [|split].
  - rewrite simplify_is_first_match, (strip_blank text H). reflexivity.
  - exact no_reason_is_not_an_echo.
  - simpl. intros [E|[E|[E|[E|[E|[E|[]]]]]]]; discriminate E.
Qed.

Lemma simplify_blank_no_reason_witness :
  _simplify_for_teacher uncased_lower [32; 9; 12288; 10]%N = msg_no_reason.
Proof.
  apply (simplify_blank_no_reason uncased_lower [32; 9; 12288; 10]%N).
  reflexivity.
Defined.

(** ** The hook callback *)

Ltac run_prog :=
  unfold bind, ret, get, modify, emit, call, try_except, when,
    result_of, state_of, trace_of in *.

Lemma hook_proc_run (h : Hook.EscHook) (k : Hook.KeyEvent) :
  Hook._hook_proc (Hook.env k) (Hook.nCode k) (Hook.wParam k) h =
  if Hook.is_esc_keydown k && Hook.armed h k then
    if Hook.debounce_elapsed h k then
      match Hook.on_esc (Hook.env k) with
      | Returned _ =>
          (Returned Hook.Swallow,
           Hook.with_last_hit_ts (Hook.now (Hook.env k)) h, [StopRequested])
      | Raised =>
          (Returned Hook.CallNext,
           Hook.with_last_hit_ts (Hook.now (Hook.env k)) h, [])
      end
    else (Returned Hook.Swallow, h, [])
  else (Returned Hook.CallNext, h, []).
Proof.
  unfold Hook._hook_proc, Hook.hook_proc_body, Hook.is_esc_keydown,
    Hook.armed, Hook.debounce_elapsed.
  run_prog.
  destruct ((Hook.nCode k =? Hook._HC_ACTION)%Z
            && ((Hook.wParam k =? Hook._WM_KEYDOWN)%Z
                || (Hook.wParam k =? Hook._WM_SYSKEYDOWN)%Z)) eqn:Hk.
  - destruct (Hook.lParam_contents (Hook.env k)) as [kb|]; [|reflexivity].
    simpl.
    destruct (Hook.vkCode kb =? Hook._VK_ESCAPE)%Z; [|reflexivity].
    destruct (Hook._enabled h) eqn:He; simpl; [|reflexivity].
    destruct (Hook.should_swallow (Hook.env k)) as [[|]|]; simpl;
      try reflexivity.
    destruct (Qle_bool (1 # 4) (Hook.now (Hook.env k) - Hook._last_hit_ts h));
      simpl; [|reflexivity].
    destruct (Hook.on_esc (Hook.env k)) as [[]|]; reflexivity.
  - destruct (Hook.lParam_contents (Hook.env k)) as [kb|]; reflexivity.
Qed.

Lemma count_stop_requests_app (t1 t2 : list Event) :
  count_stop_requests (t1 ++ t2)
  = (count_stop_requests t1 + count_stop_requests t2)%nat.
Proof.
  unfold count_stop_requests. rewrite filter_app, length_app. reflexivity.
Qed.

Lemma press_run (h : Hook.EscHook) (t : Q) :
  Hook._enabled h = true ->
  Hook._hook_proc (Hook.env (Hook.esc_press t)) (Hook.nCode (Hook.esc_press t))
    (Hook.wParam (Hook.esc_press t)) h
  = if Qle_bool (1 # 4) (t - Hook._last_hit_ts h)
    then (Returned Hook.Swallow, Hook.with_last_hit_ts t h, [StopRequested])
    else (Returned Hook.Swallow, h, []).
Proof.
  intros He. rewrite hook_proc_run.
  unfold Hook.armed, Hook.debounce_elapsed. rewrite He. reflexivity.
Qed.






(** ** The lifecycle glue *)

Section AppFacts.
Variable rt : Runtime.

Lemma disable_run (a : Application) :
  _disable_exclusive_esc rt a = (Returned tt, disarm rt a, disable_trace rt a).
Proof.
  unfold _disable_exclusive_esc, disarm, disable_trace, on_hook,
    Hook.set_enabled.
  run_prog.
  destruct a as [u l lt hk hook m]; cbn.
  destruct hook as [h|]; destruct (_keyboard rt) as [kb|]; cbn;
    try reflexivity;
    destruct hk as [hid|]; cbn; try reflexivity;
    destruct (remove_hotkey kb hid) as [[]|]; reflexivity.
Qed.

Lemma disarm_disarmed (a : Application) :
  disarmed a = true -> disarm rt a = a.
Proof.
  unfold disarmed, disarm.
  destruct a as [u l lt hk hook m]; cbn.
  destruct hook as [[e ts hh th tid]|]; destruct hk; cbn;
    try discriminate; destruct (_keyboard rt); try reflexivity;
    destruct e; try discriminate; reflexivity.
Qed.
End AppFacts.

Section SlotFacts.
Variable rt : Runtime.

Lemma disarm_suppress_until (a : Application) :
  _suppress_error_dialog_until (disarm rt a) = _suppress_error_dialog_until a.
Proof.
  unfold disarm.
  destruct (_win_exclusive_esc a); destruct (_keyboard rt); reflexivity.
Qed.

Lemma disarm_minimized (a : Application) :
  main_window_minimized (disarm rt a) = main_window_minimized a.
Proof.
  unfold disarm.
  destruct (_win_exclusive_esc a); destruct (_keyboard rt); reflexivity.
Qed.

Ltac slot_unfold :=
  unfold show_completion_notification, show_error_notification,
    show_threshold_exceeded_notification,
    show_manual_intervention_notification, report_worker_error,
    update_ui_state_not_running, restore_main_window, isMinimized,
    showNormal;
  run_prog; rewrite !disable_run.

Ltac slot_cases a :=
  destruct (has_on_worker_error rt); destruct (has_update_ui_state rt);
  cbn;
  let Hm := fresh "Hm" in
  destruct (main_window_minimized (disarm rt a)) eqn:Hm; cbn;
  rewrite ?Hm; cbn.

Ltac shape_done :=
  (split; [reflexivity|]); eexists; (split; [reflexivity|]);
  split; reflexivity.

(** Every slot returns, begins with the calls of
    [_disable_exclusive_esc], then only talks to the main window, and
    shows one dialog or none. *)
Lemma slot_shape (now : Q) (sig : TerminalSignal) (a : Application) :
  let r := slot rt now sig a in
  result_of r = Returned tt
  /\ exists rest,
       trace_of r = disable_trace rt a ++ rest
       /\ forallb is_ui_event rest = true
       /\ count_dialogs rest = (if presented a now sig then 1 else 0)%nat.
Proof.
  destruct sig as [|msg|reason|msg raw]; cbn [slot presented].
  - slot_unfold. slot_cases a; shape_done.
  - unfold error_presented. slot_unfold.
    rewrite disarm_suppress_until.
    destruct (Qlt_bool now (_suppress_error_dialog_until a));
      [slot_cases a; shape_done|].
    destruct (any_in keys_manual_review msg); [slot_cases a; shape_done|].
    destruct (is_user_stop msg); slot_cases a; shape_done.
  - slot_unfold. slot_cases a; shape_done.
  - slot_unfold. slot_cases a; shape_done.
Qed.

Lemma slot_state (now : Q) (sig : TerminalSignal) (a : Application) :
  let s := state_of (slot rt now sig a) in
  _win_exclusive_esc s = _win_exclusive_esc (disarm rt a)
  /\ _exclusive_esc_hotkey_id s = _exclusive_esc_hotkey_id (disarm rt a)
  /\ _suppress_error_dialog_until s
     = match sig with
       | ManualIntervention _ _ => now + 2
       | _ => _suppress_error_dialog_until a
       end
  /\ _global_esc_listener s = _global_esc_listener (disarm rt a).
Proof.
  destruct sig as [|msg|reason|msg raw]; cbn [slot].
  - slot_unfold. rewrite <- (disarm_suppress_until a).
    slot_cases a; repeat split; reflexivity.
  - slot_unfold. rewrite <- (disarm_suppress_until a).
    destruct (Qlt_bool now (_suppress_error_dialog_until (disarm rt a)));
      [slot_cases a; repeat split; reflexivity|].
    destruct (any_in keys_manual_review msg);
      [slot_cases a; repeat split; reflexivity|].
    destruct (is_user_stop msg); slot_cases a; repeat split; reflexivity.
  - slot_unfold. rewrite <- (disarm_suppress_until a).
    slot_cases a; repeat split; reflexivity.
  - slot_unfold. slot_cases a; repeat split; reflexivity.
Qed.
End SlotFacts.

Lemma Qlt_bool_iff (a b : Q) : Qlt_bool a b = true <-> a < b.
Proof.
  unfold Qlt_bool. rewrite negb_true_iff. split.
  - intros H. apply Qnot_le_lt. intros L.
    apply Qle_bool_iff in L. congruence.
  - intros H. apply not_true_is_false. intros L.
    apply Qle_bool_iff in L. lra.
Qed.

Lemma Qlt_bool_false_iff (a b : Q) : Qlt_bool a b = false <-> b <= a.
Proof.
  unfold Qlt_bool. rewrite negb_false_iff. apply Qle_bool_iff.
Qed.

Lemma count_dialogs_app (t1 t2 : list Event) :
  count_dialogs (t1 ++ t2) = (count_dialogs t1 + count_dialogs t2)%nat.
Proof.
  unfold count_dialogs. rewrite filter_app, length_app. reflexivity.
Qed.

Lemma dialogs_while_disarmed_ui (tr rest : list Event) :
  forallb is_ui_event tr = true ->
  dialogs_while_disarmed false (tr ++ rest) = dialogs_while_disarmed false rest.
Proof.
  induction tr as [|e tr IH]; simpl; [reflexivity|].
  intros H. apply andb_true_iff in H as [He Htr].
  destruct e; try discriminate He; simpl; auto.
Qed.

Lemma ui_events_not_capture (tr : list Event) :
  forallb is_ui_event tr = true ->
  forallb (fun e => negb (is_capture_event e)) tr = true.
Proof.
  induction tr as [|e tr IH]; simpl; [reflexivity|].
  intros H. apply andb_true_iff in H as [He Htr].
  rewrite (IH Htr). destruct e; try discriminate He; reflexivity.
Qed.

Section DeliverFacts.
Variable rt : Runtime.

Lemma disable_trace_no_dialog (a : Application) :
  count_dialogs (disable_trace rt a) = 0%nat.
Proof.
  unfold disable_trace.
  destruct (_win_exclusive_esc a); destruct (_keyboard rt);
    destruct (_exclusive_esc_hotkey_id a); reflexivity.
Qed.

Lemma disable_trace_not_capture (a : Application) :
  forallb (fun e => negb (is_capture_event e)) (disable_trace rt a) = true.
Proof.
  unfold disable_trace.
  destruct (_win_exclusive_esc a); destruct (_keyboard rt);
    destruct (_exclusive_esc_hotkey_id a); reflexivity.
Qed.

Lemma disable_trace_disarms (a : Application) (armed : bool)
    (tr : list Event) :
  _win_exclusive_esc a <> None ->
  dialogs_while_disarmed armed (disable_trace rt a ++ tr)
  = dialogs_while_disarmed false tr.
Proof.
  unfold disable_trace. intros H.
  destruct (_win_exclusive_esc a); [|congruence].
  destruct (_keyboard rt); destruct (_exclusive_esc_hotkey_id a);
    reflexivity.
Qed.

Lemma disarm_keeps_hook_object (a : Application) :
  _win_exclusive_esc a <> None -> _win_exclusive_esc (disarm rt a) <> None.
Proof.
  unfold disarm.
  destruct (_win_exclusive_esc a) eqn:E; [|congruence].
  intros _. destruct (_keyboard rt); cbn; discriminate.
Qed.

Lemma disarm_hook_flag (a : Application) (h : Hook.EscHook) :
  _win_exclusive_esc a = Some h ->
  _win_exclusive_esc (disarm rt a) = Some (Hook.with_enabled false h).
Proof.
  unfold disarm. intros ->. destruct (_keyboard rt); reflexivity.
Qed.

Lemma slot_run (now : Q) (sig : TerminalSignal) (a : Application) :
  slot rt now sig a
  = (Returned tt, state_of (slot rt now sig a), trace_of (slot rt now sig a)).
Proof.
  pose proof (slot_shape rt now sig a) as [Hr _].
  destruct (slot rt now sig a) as [[o s] t].
  unfold result_of in Hr. cbn in Hr. subst o. reflexivity.
Qed.

Lemma deliver_run (now : Q) (sig : TerminalSignal) (a : Application) :
  deliver rt now sig a =
  match sig with
  | Completed =>
      (Returned tt,
       state_of (slot rt now sig (disarm rt a)),
       disable_trace rt a ++ trace_of (slot rt now sig (disarm rt a)))
  | _ =>
      (Returned tt,
       disarm rt (state_of (slot rt now sig a)),
       trace_of (slot rt now sig a)
         ++ disable_trace rt (state_of (slot rt now sig a)))
  end.
Proof.
  destruct sig; unfold deliver, bind.
  - rewrite disable_run.
    change (show_completion_notification rt) with (slot rt now Completed).
    rewrite slot_run. reflexivity.
  - rewrite slot_run, disable_run. reflexivity.
  - rewrite slot_run, disable_run. reflexivity.
  - rewrite slot_run, disable_run. reflexivity.
Qed.

Lemma slot_dialogs (now : Q) (sig : TerminalSignal) (a : Application) :
  count_dialogs (trace_of (slot rt now sig a))
  = (if presented a now sig then 1 else 0)%nat.
Proof.
  pose proof (slot_shape rt now sig a) as [_ [rest [E [_ C]]]].
  rewrite E, count_dialogs_app, disable_trace_no_dialog. exact C.
Qed.

Lemma deliver_dialogs (now : Q) (sig : TerminalSignal) (a : Application) :
  count_dialogs (trace_of (deliver rt now sig a))
  = (if presented a now sig then 1 else 0)%nat.
Proof.
  rewrite deliver_run.
  destruct sig; unfold trace_of at 1; cbn [snd];
    rewrite count_dialogs_app, disable_trace_no_dialog, slot_dialogs;
    cbn [presented]; lia.
Qed.

Lemma deliver_suppress_until (now : Q) (sig : TerminalSignal)
    (a : Application) :
  _suppress_error_dialog_until (state_of (deliver rt now sig a))
  = match sig with
    | ManualIntervention _ _ => now + 2
    | _ => _suppress_error_dialog_until a
    end.
Proof.
  rewrite deliver_run.
  destruct sig as [|m|r|m raw]; unfold state_of at 1; cbn [fst snd].
  - destruct (slot_state rt now Completed (disarm rt a)) as [_ [_ [E _]]].
    rewrite E. apply disarm_suppress_until.
  - rewrite disarm_suppress_until.
    destruct (slot_state rt now (Error m) a) as [_ [_ [E _]]]. exact E.
  - rewrite disarm_suppress_until.
    destruct (slot_state rt now (ThresholdExceeded r) a) as [_ [_ [E _]]].
    exact E.
  - rewrite disarm_suppress_until.
    destruct (slot_state rt now (ManualIntervention m raw) a) as [_ [_ [E _]]].
    exact E.
Qed.
End DeliverFacts.

(** ** The notification slots *)

Lemma disable_trace_alone (rt : Runtime) (a : Application) (armed : bool) :
  dialogs_while_disarmed armed (disable_trace rt a) = true.
Proof.
  unfold disable_trace.
  destruct (_win_exclusive_esc a); destruct (_keyboard rt);
    destruct (_exclusive_esc_hotkey_id a); reflexivity.
Qed.

Lemma slot_disarmed_dialogs (rt : Runtime) (now : Q) (sig : TerminalSignal)
    (a : Application) (armed : bool) (tail : list Event) :
  _win_exclusive_esc a <> None ->
  dialogs_while_disarmed armed (trace_of (slot rt now sig a) ++ tail)
  = dialogs_while_disarmed false tail.
Proof.
  intros Hh.
  pose proof (slot_shape rt now sig a) as [_ [rest [E [U _]]]].
  rewrite E, <- app_assoc, disable_trace_disarms by exact Hh.
  apply dialogs_while_disarmed_ui. exact U.
Qed.

(** C6.  The slot of each of the four terminal signals begins with the
    calls of [_disable_exclusive_esc] and only then talks to the main
    window: with the hook object in place, the first call of the slot is
    [set_enabled(False)], every dialog of the slot, and of the whole
    delivery of the signal, is shown while the interceptor is disarmed,
    and the slot leaves the flag of the hook cleared. *)
Theorem slots_disarm_before_dialog
    (rt : Runtime) (now : Q) (sig : TerminalSignal) (a : Application) :
  let r := slot rt now sig a in
  (exists rest,
      trace_of r = disable_trace rt a ++ rest
      /\ count_dialogs (disable_trace rt a) = 0%nat
      /\ forallb is_ui_event rest = true)
  /\ (forall h, _win_exclusive_esc a = Some h ->
        hd_error (trace_of r) = Some (EscSetEnabled false)
        /\ dialogs_while_disarmed true (trace_of r) = true
        /\ dialogs_while_disarmed true (trace_of (deliver rt now sig a)) = true
        /\ _win_exclusive_esc (state_of r)
           = Some (Hook.with_enabled false h)).
Proof.
  intros r. subst r.
  pose proof (slot_shape rt now sig a) as [_ [rest [E [U _]]]].
  split.
  - exists rest. repeat split; auto using disable_trace_no_dialog.
  - intros h Hh.
    assert (Hn : _win_exclusive_esc a <> None) by congruence.
    split; [|split; [|split]].
    + rewrite E. unfold disable_trace. rewrite Hh. reflexivity.
    + rewrite <- (app_nil_r (trace_of (slot rt now sig a))).
      apply slot_disarmed_dialogs. exact Hn.
    + rewrite deliver_run. destruct sig; unfold trace_of at 1; cbn [snd].
      * rewrite disable_trace_disarms by exact Hn.
        rewrite <- (app_nil_r (trace_of _)).
        apply slot_disarmed_dialogs.
        apply disarm_keeps_hook_object. exact Hn.
      * rewrite slot_disarmed_dialogs by exact Hn. apply disable_trace_alone.
      * rewrite slot_disarmed_dialogs by exact Hn. apply disable_trace_alone.
      * rewrite slot_disarmed_dialogs by exact Hn. apply disable_trace_alone.
    + destruct (slot_state rt now sig a) as [-> _].
      apply disarm_hook_flag. exact Hh.
Qed.

Lemma slots_disarm_before_dialog_witness :
  let a := with_hook (Some (Hook.with_enabled true Hook.init)) (init true) in
  dialogs_while_disarmed true
    (trace_of (deliver windows_runtime 10 (ThresholdExceeded (py "gap")) a))
  = true.
Proof.
  intros a.
  apply (proj2 (slots_disarm_before_dialog windows_runtime 10
                  (ThresholdExceeded (py "gap")) a)
           (Hook.with_enabled true Hook.init)).
  reflexivity.
Defined.



Section RunFacts.
Variable rt : Runtime.

Lemma deliver_returns (now : Q) (sig : TerminalSignal) (a : Application) :
  deliver rt now sig a
  = (Returned tt, state_of (deliver rt now sig a),
     trace_of (deliver rt now sig a)).
Proof. rewrite deliver_run. destruct sig; reflexivity. Qed.

Lemma run_signals_cons (now : Q) (sig : TerminalSignal)
    (rest : list (Q * TerminalSignal)) (a : Application) :
  run_signals rt ((now, sig) :: rest) a =
  let s := state_of (deliver rt now sig a) in
  (result_of (run_signals rt rest s), state_of (run_signals rt rest s),
   trace_of (deliver rt now sig a) ++ trace_of (run_signals rt rest s)).
Proof.
  cbn [run_signals]. unfold bind.
  pose proof (deliver_returns now sig a) as E.
  destruct (deliver rt now sig a) as [[o1 s1] t1].
  unfold state_of, trace_of, result_of in *. cbn [fst snd] in *.
  injection E as ->.
  destruct (run_signals rt rest s1) as [[o s] t].
  reflexivity.
Qed.

Lemma run_signals_cons_dialogs (now : Q) (sig : TerminalSignal)
    (rest : list (Q * TerminalSignal)) (a : Application) :
  count_dialogs (trace_of (run_signals rt ((now, sig) :: rest) a))
  = ((if presented a now sig then 1 else 0)
     + count_dialogs
         (trace_of (run_signals rt rest
                      (state_of (deliver rt now sig a)))))%nat.
Proof.
  rewrite run_signals_cons. unfold trace_of at 1. cbn [snd].
  rewrite count_dialogs_app, deliver_dialogs. reflexivity.
Qed.



End RunFacts.







(** ** Starting, disabling, and platforms without the capability *)

Lemma start_run (platform : string) (h : Hook.EscHook) :
  Hook.start platform h =
  if Hook.is_win32 platform then
    match Hook._thread h with
    | Some _ => (Returned true, h, [])
    | None =>
        (Returned true,
         Hook.with_thread (Some Hook.ExclusiveEscHookThread) h,
         [HookThreadStart])
    end
  else (Returned false, h, []).
Proof.
  unfold Hook.start. run_prog.
  destruct (Hook.is_win32 platform); cbn; [|reflexivity].
  destruct (Hook._thread h); reflexivity.
Qed.

(** C7.  [_disable_exclusive_esc] returns from every state, also when
    removing the hotkey raises; from a state that is already disarmed it
    changes nothing and calls no collaborator (its only call is
    [set_enabled(False)] on a flag that is already clear).  On win32 two
    calls of [start()] both return true, the second one changing nothing
    and calling nothing; together they start the hook thread once on a
    fresh object (never when it is already started), [start()] itself
    never installs a hook, and a run of the thread's main function calls
    [SetWindowsHookExW] exactly once. *)
Theorem disable_idempotent_start_once
    (rt : Runtime) (a : Application) (h : Hook.EscHook) :
  result_of (_disable_exclusive_esc rt a) = Returned tt
  /\ (disarmed a = true ->
      state_of (_disable_exclusive_esc rt a) = a
      /\ trace_of (_disable_exclusive_esc rt a)
         = match _win_exclusive_esc a with
           | Some _ => [EscSetEnabled false]
           | None => []
           end)
  /\ (Hook.is_win32 (sys_platform rt) = true ->
      let r1 := Hook.start (sys_platform rt) h in
      let r2 := Hook.start (sys_platform rt) (state_of r1) in
      result_of r1 = Returned true
      /\ r2 = (Returned true, state_of r1, [])
      /\ count_events is_thread_start (trace_of r1 ++ trace_of r2)
         = match Hook._thread h with None => 1%nat | Some _ => 0%nat end
      /\ count_events is_hook_install (trace_of r1 ++ trace_of r2) = 0%nat
      /\ forall tid hhook h',
           count_events is_hook_install
             (trace_of (Hook._thread_main_enter tid hhook h')) = 1%nat).
Proof.
  split; [|split].
  - rewrite disable_run. reflexivity.
  - intros Hd. rewrite disable_run. unfold state_of, trace_of. cbn [fst snd].
    split; [exact (disarm_disarmed rt a Hd)|].
    unfold disarmed in Hd. unfold disable_trace.
    destruct (_exclusive_esc_hotkey_id a).
    + rewrite andb_false_r in Hd. discriminate.
    + destruct (_win_exclusive_esc a); destruct (_keyboard rt); reflexivity.
  - intros Hw r1 r2. subst r1 r2. rewrite !start_run, Hw.
    assert (Hi : forall tid hhook h',
               count_events is_hook_install
                 (trace_of (Hook._thread_main_enter tid hhook h')) = 1%nat).
    { intros tid hhook h'. unfold Hook._thread_main_enter. run_prog.
      destruct (negb (Hook.handle_truthy (Some hhook))); reflexivity. }
    destruct (Hook._thread h) eqn:Ht; cbn; rewrite ?Ht; cbn;
      repeat split; exact Hi.
Qed.

Lemma disable_idempotent_start_once_witness :
  state_of (_disable_exclusive_esc windows_runtime (init false)) = init false
  /\ (let r1 := Hook.start "win32" Hook.init in
      let r2 := Hook.start "win32" (state_of r1) in
      result_of r1 = Returned true
      /\ r2 = (Returned true, state_of r1, [])
      /\ count_events is_thread_start (trace_of r1 ++ trace_of r2) = 1%nat).
Proof.
  pose proof (disable_idempotent_start_once windows_runtime (init false)
                Hook.init) as [_ [D S]].
  split.
  - exact (proj1 (D eq_refl)).
  - destruct (S eq_refl) as [S1 [S2 [S3 _]]]. repeat split; assumption.
Defined.

Section NoCapability.
Variable rt : Runtime.
Hypothesis no_native_hook : Hook.is_win32 (sys_platform rt) = false.
Hypothesis no_keyboard_module : _keyboard rt = None.

Lemma disarm_pristine (a : Application) : pristine a -> pristine (disarm rt a).
Proof.
  intros [Hh [Hk Hl]]. unfold pristine, disarm.
  rewrite Hh, no_keyboard_module. cbn. auto.
Qed.

Lemma disable_trace_pristine (a : Application) :
  pristine a -> disable_trace rt a = [EscSetEnabled false].
Proof.
  intros [Hh [Hk Hl]]. unfold disable_trace.
  rewrite Hh, no_keyboard_module. reflexivity.
Qed.

Lemma slot_pristine (now : Q) (sig : TerminalSignal) (a : Application) :
  pristine a -> pristine (state_of (slot rt now sig a)).
Proof.
  intros Hp. destruct (slot_state rt now sig a) as [Eh [Ek [_ El]]].
  destruct (disarm_pristine a Hp) as [Hh [Hk Hl]].
  repeat split; congruence.
Qed.

Lemma deliver_pristine (now : Q) (sig : TerminalSignal) (a : Application) :
  pristine a ->
  pristine (state_of (deliver rt now sig a))
  /\ forallb (fun e => negb (is_capture_event e))
       (trace_of (deliver rt now sig a)) = true.
Proof.
  intros Hp. rewrite deliver_run.
  assert (Hs : forall b, forallb (fun e => negb (is_capture_event e))
                           (trace_of (slot rt now sig b)) = true).
  { intros b. destruct (slot_shape rt now sig b) as [_ [rest [E [U _]]]].
    rewrite E, forallb_app, disable_trace_not_capture.
    apply ui_events_not_capture. exact U. }
  pose proof (slot_pristine now sig) as Hsp.
  destruct sig; unfold state_of, trace_of in *; cbn [fst snd];
    (split;
     [auto using disarm_pristine
     |rewrite forallb_app, Hs, disable_trace_not_capture; reflexivity]).
Qed.

Lemma exec_op_pristine (op : Op) (a : Application) :
  pristine a ->
  exists o s t,
    exec_op rt op a = (Returned o, s, t)
    /\ pristine s
    /\ o <> KeySwallowed /\ o <> StartReturned true
    /\ forallb (fun e => negb (is_capture_event e)) t = true.
Proof.
  intros Hp.
  destruct op as [| | | | | |now sig|tid hhook| |k|b].
  - (* OpSetup *)
    exists Done, a, []. cbn [exec_op].
    unfold _setup_global_esc_support, is_win32. rewrite no_native_hook.
    repeat split; try discriminate; apply Hp.
  - (* OpStart *)
    destruct Hp as [Hh [Hk Hl]].
    exists (StartReturned false), (with_hook (Some Hook.init) a), [].
    cbn [exec_op]. unfold on_hook. run_prog.
    rewrite Hh, start_run, no_native_hook.
    repeat split; try discriminate; assumption.
  - (* OpEnable *)
    exists Done, a, []. cbn [exec_op].
    unfold _enable_exclusive_esc_if_possible, is_win32.
    rewrite no_native_hook. repeat split; try discriminate; apply Hp.
  - (* OpDisable *)
    exists Done, (disarm rt a), [EscSetEnabled false]. cbn [exec_op].
    unfold bind. rewrite disable_run, (disable_trace_pristine a Hp).
    repeat split; try discriminate; apply (disarm_pristine a Hp).
  - (* OpStop *)
    destruct Hp as [Hh [Hk Hl]].
    exists Done, (with_hook (Some Hook.init) a), []. cbn [exec_op].
    unfold _stop_windows_exclusive_esc, on_hook, Hook.stop. run_prog.
    rewrite Hh, no_native_hook.
    repeat split; try discriminate; assumption.
  - (* OpStopListener *)
    cbn [exec_op]. unfold _stop_global_esc_listener. run_prog.
    destruct (_global_esc_listener a).
    + exists Done, a, [ListenerStop].
      repeat split; try discriminate; apply Hp.
    + exists Done, a, [].
      repeat split; try discriminate; apply Hp.
  - (* OpSignal *)
    destruct (deliver_pristine now sig a Hp) as [Hs Ht].
    pose proof (deliver_returns rt now sig a) as E.
    cbn [exec_op]. unfold bind, ret.
    destruct (deliver rt now sig a) as [[o1 s1] t1].
    unfold state_of, trace_of in *. cbn [fst snd] in *.
    injection E as ->.
    exists Done, s1, (t1 ++ []). rewrite app_nil_r.
    repeat split; try discriminate; try apply Hs. exact Ht.
  - (* OpHookThreadEnter *)
    destruct Hp as [Hh [Hk Hl]].
    exists Done, a, []. cbn [exec_op]. unfold hook_thread_started.
    run_prog. rewrite Hh. repeat split; try discriminate; assumption.
  - (* OpHookThreadLeave *)
    destruct Hp as [Hh [Hk Hl]].
    exists Done, a, []. cbn [exec_op]. unfold hook_thread_started.
    run_prog. rewrite Hh. repeat split; try discriminate; assumption.
  - (* OpKey *)
    destruct Hp as [Hh [Hk Hl]].
    exists KeyForwarded, a, []. cbn [exec_op]. unfold dispatch_key.
    unfold listen_key. run_prog. rewrite Hh. cbn. rewrite Hk, Hl.
    repeat split; try discriminate; assumption.
  - (* OpWindowMinimized *)
    exists Done, (with_minimized b a), []. cbn [exec_op].
    repeat split; try discriminate; apply Hp.
Qed.

Lemma run_ops_pristine (ops : list Op) (a : Application) :
  pristine a ->
  exists obs s t,
    run_ops rt ops a = (Returned obs, s, t)
    /\ pristine s
    /\ ~ In KeySwallowed obs /\ ~ In (StartReturned true) obs
    /\ forallb (fun e => negb (is_capture_event e)) t = true.
Proof.
  revert a. induction ops as [|op ops IH]; intros a Hp.
  - exists [], a, []. repeat split; try apply Hp; auto.
  - destruct (exec_op_pristine op a Hp) as [o [s [t [E [Hs [N1 [N2 Ht]]]]]]].
    destruct (IH s Hs) as [obs [s' [t' [E' [Hs' [M1 [M2 Ht']]]]]]].
    exists (o :: obs), s', (t ++ t' ++ []).
    cbn [run_ops]. unfold bind, ret. rewrite E, E'.
    repeat split; try apply Hs'.
    + intros [F|F]; [congruence|contradiction].
    + intros [F|F]; [congruence|contradiction].
    + rewrite !forallb_app, Ht, Ht'. reflexivity.
Qed.
End NoCapability.

(** C8.  On a platform other than win32 and without the [keyboard]
    module: [start()] returns false and leaves the hook object as it was;
    whatever the application, the hook thread and the keyboard then do,
    in any order, the interceptor stays as [__init__] made it, every
    [start()] returns false, every key event is forwarded, and no call
    installs, arms or fires an interceptor; in every state so reached
    [_enable_exclusive_esc_if_possible] does nothing at all and
    [_disable_exclusive_esc] only clears a flag that is already clear. *)
Theorem no_capability_no_swallow
    (rt : Runtime) (ops : list Op) (minimized : bool) :
  Hook.is_win32 (sys_platform rt) = false ->
  _keyboard rt = None ->
  let r := run_ops rt ops (init minimized) in
  Hook.start (sys_platform rt) Hook.init = (Returned false, Hook.init, [])
  /\ (exists obs,
        result_of r = Returned obs
        /\ ~ In KeySwallowed obs /\ ~ In (StartReturned true) obs)
  /\ pristine (state_of r)
  /\ forallb (fun e => negb (is_capture_event e)) (trace_of r) = true
  /\ _enable_exclusive_esc_if_possible rt (state_of r)
     = (Returned tt, state_of r, [])
  /\ _disable_exclusive_esc rt (state_of r)
     = (Returned tt, state_of r, [EscSetEnabled false]).
Proof.
  intros Hw Hk r. subst r.
  assert (Hp : pristine (init minimized)) by (repeat split; reflexivity).
  destruct (run_ops_pristine rt Hw Hk ops (init minimized) Hp)
    as [obs [s [t [E [Hs [N1 [N2 Ht]]]]]]].
  rewrite E. unfold result_of, state_of, trace_of. cbn [fst snd].
  split; [rewrite start_run, Hw; reflexivity|].
  split; [exists obs; auto|].
  split; [exact Hs|]. split; [exact Ht|]. split.
  - unfold _enable_exclusive_esc_if_possible, is_win32. rewrite Hw.
    reflexivity.
  - rewrite disable_run, (disable_trace_pristine rt Hk s Hs).
    f_equal. f_equal. apply disarm_disarmed.
    destruct Hs as [Hh [Hhk _]]. unfold disarmed. rewrite Hh, Hhk.
    reflexivity.
Qed.

Lemma no_capability_no_swallow_witness :
  let r := run_ops linux_runtime
             [OpSetup; OpStart; OpEnable; OpKey (Hook.esc_press 5);
              OpSignal 6 (Error (py "boom")); OpDisable;
              OpKey (Hook.esc_press 7)]
             (init false) in
  (exists obs,
      result_of r = Returned obs
      /\ ~ In KeySwallowed obs /\ ~ In (StartReturned true) obs)
  /\ pristine (state_of r).
Proof.
  intros r.
  destruct (no_capability_no_swallow linux_runtime
              [OpSetup; OpStart; OpEnable; OpKey (Hook.esc_press 5);
               OpSignal 6 (Error (py "boom")); OpDisable;
               OpKey (Hook.esc_press 7)]
              false eq_refl eq_refl) as [_ [O [P _]]].
  split; [exact O | exact P].
Defined.


(** ** Worked examples *)

Example py_ascii :
  py "timed out" = [116; 105; 109; 101; 100; 32; 111; 117; 116]%N.
Proof. reflexivity. Qed.

Example py_cjk : py "余额…" = [20313; 39069; 8230]%N.
Proof. reflexivity. Qed.

Example strip_mixed : strip (py "  a b  ") = py "a b".
Proof. reflexivity. Qed.

Example classify_timeout :
  _simplify_for_teacher uncased_lower (py "Connection timed out after 30s")
  = msg_timeout.
Proof. reflexivity. Qed.

Example classify_quota_cjk :
  _simplify_for_teacher uncased_lower (py "账户余额不足") = msg_quota.
Proof. reflexivity. Qed.

Example classify_priority :
  _simplify_for_teacher uncased_lower (py "HTTP 503 after Timeout")
  = msg_timeout.
Proof. reflexivity. Qed.

Example classify_generic :
  _simplify_for_teacher uncased_lower (py "  boom  ") = py "发生了错误：boom".
Proof. reflexivity. Qed.

Example user_stop_is_silent :
  trace_of (deliver windows_runtime 10 (Error (py "用户手动停止"))
              (with_hook (Some (Hook.with_enabled true Hook.init)) (init false)))
  = [EscSetEnabled false; OnWorkerError (py "用户手动停止");
     EscSetEnabled false].
Proof. vm_compute. reflexivity. Qed.

Example windows_start_arms_on_worker_start :
  result_of (run_ops windows_runtime
               [OpStart; OpHookThreadEnter 9 77; OpEnable;
                OpKey (Hook.esc_press 1000);
                OpKey (Hook.esc_press (1000 + (1 # 10)));
                OpSignal 1001 (Error (py "用户手动停止"));
                OpKey (Hook.esc_press 1002)]
               (init false))
  = Returned [StartReturned true; Done; Done; KeySwallowed; KeySwallowed;
              Done; KeyForwarded].
Proof. vm_compute. reflexivity. Qed.

(* ================================================================== *)
(** * Further properties *)

(** ** The classifier and surrounding white space *)

Lemma lstrip_blank_prefix (w s : pystr) :
  forallb is_whitespace w = true -> lstrip (w ++ s) = lstrip s.
Proof.
  induction w as [|c w IH]; simpl; [reflexivity|].
  intros H. apply andb_true_iff in H as [Hc Hw]. rewrite Hc. auto.
Qed.

Lemma lstrip_nil_blank (s : pystr) :
  lstrip s = [] -> forallb is_whitespace s = true.
Proof.
  induction s as [|c s IH]; simpl; [reflexivity|].
  destruct (is_whitespace c); [exact IH | discriminate].
Qed.

Lemma forallb_rev (A : Type) (f : A -> bool) (l : list A) :
  forallb f (rev l) = forallb f l.
Proof.
  induction l as [|a l IH]; simpl; [reflexivity|].
  rewrite forallb_app, IH. simpl. rewrite andb_true_r. apply andb_comm.
Qed.

Lemma rstrip_blank_suffix (s w : pystr) :
  forallb is_whitespace w = true -> rstrip (s ++ w) = rstrip s.
Proof.
  intros H. unfold rstrip. rewrite rev_app_distr.
  rewrite lstrip_blank_prefix by (rewrite forallb_rev; exact H).
  reflexivity.
Qed.

Lemma strip_padding (w1 s w2 : pystr) :
  forallb is_whitespace w1 = true -> forallb is_whitespace w2 = true ->
  strip (w1 ++ s ++ w2) = strip s.
Proof.
  intros H1 H2. unfold strip. rewrite lstrip_blank_prefix by exact H1.
  destruct (lstrip s) as [|c r] eqn:E.
  - pose proof (lstrip_nil_blank s E) as Hs.
    rewrite lstrip_blank by (rewrite forallb_app, Hs, H2; reflexivity).
    reflexivity.
  - assert (Hc : is_whitespace c = false).
    { clear H1 H2. induction s as [|d s IH]; simpl in E; [discriminate|].
      destruct (is_whitespace d) eqn:Hd; [auto|].
      injection E as -> _. exact Hd. }
    assert (L : lstrip (s ++ w2) = (c :: r) ++ w2).
    { clear H1 H2. revert E. induction s as [|d s IH]; simpl;
        [discriminate|].
      destruct (is_whitespace d) eqn:Hd; [exact IH|].
      intros E. injection E as -> ->. reflexivity. }
    rewrite L. apply rstrip_blank_suffix. exact H2.
Qed.

(** X1.  White space around a message never changes how it is
    classified: padding it on either side with any Unicode white space
    gives the same sentence. *)
Theorem simplify_ignores_padding ul (w1 text w2 : pystr) :
  forallb is_whitespace w1 = true -> forallb is_whitespace w2 = true ->
  _simplify_for_teacher ul (w1 ++ text ++ w2) = _simplify_for_teacher ul text.
Proof.
  intros H1 H2. unfold _simplify_for_teacher.
  rewrite (strip_padding w1 text w2 H1 H2). reflexivity.
Qed.

Lemma simplify_ignores_padding_witness :
  _simplify_for_teacher uncased_lower
    ([9; 32]%N ++ py "503 Bad Gateway" ++ [13; 10; 12288]%N)
  = _simplify_for_teacher uncased_lower (py "503 Bad Gateway").
Proof.
  apply (simplify_ignores_padding uncased_lower [9; 32]%N
           (py "503 Bad Gateway") [13; 10; 12288]%N); reflexivity.
Defined.

(** X2.  The sentence shown to the teacher is never empty and never
    longer than 87 code points, however long the error text is. *)
Theorem simplify_length_bounded ul (text : pystr) :
  (1 <= List.length (_simplify_for_teacher ul text) <= 87)%nat.
Proof.
  rewrite simplify_is_first_match.
  unfold first_match, priority_table. cbn [find fst snd].
  repeat match goal with
  | |- context [if any_in ?ks ?low then _ else _] =>
      destruct (any_in ks low); [cbn; lia|]
  end.
  destruct (strip text) as [|c r] eqn:E; [cbn; lia|].
  pose proof (generic_echo_length (c :: r)) as Hle.
  split; [|exact Hle].
  unfold generic_echo. rewrite length_app.
  change (List.length generic_prefix) with 6%nat. lia.
Qed.

(** ** The feedback summary of the manual-intervention dialog *)

Lemma startswith_length (k s : pystr) :
  startswith k s = true -> (List.length k <= List.length s)%nat.
Proof.
  revert s. induction k as [|a k IH]; intros s H; simpl; [lia|].
  destruct s as [|b s]; [discriminate|]. simpl in H.
  apply andb_true_iff in H as [_ H]. specialize (IH s H). simpl. lia.
Qed.

Lemma replace_from_length (old new : pystr) :
  (List.length new <= List.length old)%nat ->
  forall s k,
    (List.length (Dialogs.replace_from k old new s)
     + Nat.min k (List.length s) <= List.length s)%nat.
Proof.
  intros Hn. induction s as [|c r IH]; intros k; simpl; [lia|].
  destruct k as [|k].
  - destruct (startswith old (c :: r)) eqn:Hs.
    + apply startswith_length in Hs. simpl in Hs.
      specialize (IH (List.length old - 1)%nat).
      rewrite length_app. lia.
    + specialize (IH 0%nat). simpl. lia.
  - specialize (IH k). lia.
Qed.

Lemma replace_single (a b : N) (s : pystr) :
  Dialogs.replace [a] [b] s
  = List.map (fun c => if (a =? c)%N then b else c) s.
Proof.
  unfold Dialogs.replace. induction s as [|c r IH]; [reflexivity|].
  cbn [Dialogs.replace_from startswith List.length Nat.sub List.map].
  destruct r as [|d r'];
    destruct (a =? c)%N; cbn [andb app]; rewrite <- ?IH; reflexivity.
Qed.

Lemma replace_absent (a : N) (old' new s : pystr) :
  ~ In a s -> Dialogs.replace (a :: old') new s = s.
Proof.
  unfold Dialogs.replace. induction s as [|c r IH]; [reflexivity|].
  intros Hn. cbn [Dialogs.replace_from startswith].
  destruct (N.eqb_spec a c) as [->|Hne].
  - exfalso. apply Hn. left. reflexivity.
  - cbn [andb]. rewrite IH; [reflexivity|].
    intros Hin. apply Hn. right. exact Hin.
Qed.

Lemma in_firstn (A : Type) (x : A) (n : nat) (l : list A) :
  In x (firstn n l) -> In x l.
Proof.
  intros H. rewrite <- (firstn_skipn n l). apply in_or_app. left. exact H.
Qed.

(** X3.  The feedback summary of the manual-intervention dialog never
    contains a carriage return and is at most 201 code points long (200
    and the ellipsis); feedback that is missing, empty or all white space
    is shown as "(无)"; stripped feedback without carriage returns and of
    at most 200 code points is shown unchanged. *)
Theorem feedback_preview_normalised (raw_feedback : option pystr) :
  ~ In Dialogs.CR (Dialogs.feedback_preview raw_feedback)
  /\ (List.length (Dialogs.feedback_preview raw_feedback) <= 201)%nat
  /\ (forall raw,
        raw_feedback = Some raw -> forallb is_whitespace raw = true ->
        Dialogs.feedback_preview raw_feedback = Dialogs.no_feedback)
  /\ Dialogs.feedback_preview None = Dialogs.no_feedback
  /\ (forall raw,
        raw_feedback = Some raw -> strip raw <> [] ->
        ~ In Dialogs.CR (strip raw) ->
        (List.length (strip raw) <= 200)%nat ->
        Dialogs.feedback_preview raw_feedback = strip raw).
Proof.
  unfold Dialogs.feedback_preview.
  set (raw := match raw_feedback with Some s => s | None => [] end).
  split; [|split; [|split; [|split]]].
  - destruct (strip raw) as [|c r] eqn:E.
    + vm_compute. intuition discriminate.
    + cbv zeta. rewrite replace_single. intros Hin.
      apply in_app_or in Hin as [Hin|Hin].
      * apply in_firstn in Hin. apply in_map_iff in Hin as [x [Hx _]].
        unfold Dialogs.CR, Dialogs.LF in Hx.
        destruct (N.eqb_spec 13 x); [discriminate Hx|]. congruence.
      * destruct (200 <? _)%nat; [|contradiction].
        vm_compute in Hin. intuition discriminate.
  - destruct (strip raw) as [|c r] eqn:E; [vm_compute; lia|].
    cbv zeta. unfold slice_to. rewrite length_app, length_firstn.
    match goal with
    | |- context [(200 <? ?n)%nat] =>
        pose proof (Nat.le_min_l 200 n); destruct (200 <? n)%nat
    end;
      [change (List.length ellipsis) with 1%nat
      |change (List.length (@nil N)) with 0%nat]; lia.
  - intros raw' -> Hb. subst raw. rewrite (strip_blank raw' Hb). reflexivity.
  - reflexivity.
  - intros raw' -> Hne Hcr Hlen. subst raw.
    destruct (strip raw') as [|c r] eqn:E; [congruence|].
    cbv zeta.
    rewrite (replace_absent Dialogs.CR [Dialogs.LF] [Dialogs.LF] (c :: r) Hcr).
    rewrite (replace_absent Dialogs.CR [] [Dialogs.LF] (c :: r) Hcr).
    unfold slice_to. rewrite firstn_all2 by exact Hlen.
    replace (200 <? List.length (c :: r))%nat with false
      by (symmetry; apply Nat.ltb_ge; exact Hlen).
    apply app_nil_r.
Qed.

Lemma feedback_preview_normalised_witness :
  Dialogs.feedback_preview (Some [32; 9]%N) = Dialogs.no_feedback
  /\ Dialogs.feedback_preview (Some (py "  ok  ")) = strip (py "  ok  ").
Proof.
  pose proof (feedback_preview_normalised (Some [32; 9]%N)) as [_ [_ [B _]]].
  pose proof (feedback_preview_normalised (Some (py "  ok  ")))
    as [_ [_ [_ [_ K]]]].
  split.
  - exact (B [32; 9]%N eq_refl eq_refl).
  - apply (K (py "  ok  ") eq_refl).
    + vm_compute. discriminate.
    + vm_compute. intuition discriminate.
    + vm_compute. lia.
Defined.

(** ** The alert sound of the dialogs *)

(** X4.  Playing the alert sound never raises, whatever [winsound] does.
    When every [Beep] returns, an error dialog beeps twice, an
    information dialog once and the manual-intervention dialog three
    times, and [MessageBeep] is not called.  When the first [Beep] raises,
    no further [Beep] is tried and [MessageBeep(-1)] is called once
    instead. *)
Theorem play_system_sound_never_raises (ws : Dialogs.Winsound) (is_error : bool) :
  let simple := Dialogs.simple_play_system_sound ws is_error tt in
  let manual := Dialogs.manual_play_system_sound ws tt in
  result_of simple = Returned tt
  /\ result_of manual = Returned tt
  /\ ((forall n, Dialogs.beep ws n = Returned tt) ->
      trace_of simple
      = (if is_error
         then [Dialogs.Beep 1000 300; Dialogs.Beep 1000 300]
         else [Dialogs.Beep 800 200])
      /\ trace_of manual
         = [Dialogs.Beep 1000 250; Dialogs.Beep 1000 250;
            Dialogs.Beep 1000 250])
  /\ (Dialogs.beep ws 0 = Raised ->
      trace_of simple
      = [if is_error then Dialogs.Beep 1000 300 else Dialogs.Beep 800 200;
         Dialogs.MessageBeep]
      /\ trace_of manual = [Dialogs.Beep 1000 250; Dialogs.MessageBeep]).
Proof.
  intros simple manual. subst simple manual.
  unfold Dialogs.simple_play_system_sound, Dialogs.manual_play_system_sound,
    Dialogs.fallback_beep, Dialogs.do_beep.
  run_prog.
  split; [|split; [|split]].
  - destruct is_error; cbn;
      destruct (Dialogs.beep ws 0) as [[]|]; cbn;
      try destruct (Dialogs.beep ws 1) as [[]|]; cbn;
      destruct (Dialogs.message_beep ws) as [[]|]; reflexivity.
  - cbn. destruct (Dialogs.beep ws 0) as [[]|]; cbn;
      try (destruct (Dialogs.beep ws 1) as [[]|]; cbn);
      try (destruct (Dialogs.beep ws 2) as [[]|]; cbn);
      destruct (Dialogs.message_beep ws) as [[]|]; reflexivity.
  - intros H. destruct is_error; cbn; rewrite !H; cbn; split; reflexivity.
  - intros H. destruct is_error; cbn; rewrite H; cbn;
      destruct (Dialogs.message_beep ws) as [[]|]; split; reflexivity.
Qed.

Lemma play_system_sound_never_raises_witness :
  let ws := {| Dialogs.beep := fun _ => Raised;
               Dialogs.message_beep := Raised |} in
  trace_of (Dialogs.manual_play_system_sound ws tt)
  = [Dialogs.Beep 1000 250; Dialogs.MessageBeep].
Proof.
  intros ws.
  exact (proj2 (proj2 (proj2 (proj2
           (play_system_sound_never_raises ws true))) eq_refl)).
Defined.

(** ** The listener of the fallback tier *)

Lemma on_press_run (is_esc : bool) (now : Q) (running : outcome bool)
    (a : Application) :
  _on_press is_esc now running a =
  if is_esc && negb (Qlt_bool (now - _global_esc_last_hit_ts a) (35 # 100))
  then (Returned tt, with_global_last_hit_ts now a,
        match running with
        | Returned true => [StopRequested]
        | _ => []
        end)
  else (Returned tt, a, []).
Proof.
  unfold _on_press. run_prog.
  destruct is_esc; cbn; [|reflexivity].
  destruct (Qlt_bool (now - _global_esc_last_hit_ts a) (35 # 100)); cbn;
    [reflexivity|].
  destruct running as [[|]|]; reflexivity.
Qed.

(** X5.  The key callback of the listener never raises, also when asking
    the worker raises.  It requests a stop exactly when the key is Esc,
    at least 0.35 s have passed since the press it last took and the
    worker is running, and then exactly once; it touches nothing of the
    application but its own time stamp. *)
Theorem on_press_policy (is_esc : bool) (now : Q) (running : outcome bool)
    (a : Application) :
  let r := _on_press is_esc now running a in
  result_of r = Returned tt
  /\ (count_stop_requests (trace_of r) <= 1)%nat
  /\ (In StopRequested (trace_of r) <->
      is_esc = true /\ 35 # 100 <= now - _global_esc_last_hit_ts a
      /\ running = Returned true)
  /\ (state_of r = a \/ state_of r = with_global_last_hit_ts now a).
Proof.
  intros r. subst r. rewrite on_press_run.
  unfold result_of, state_of, trace_of.
  destruct is_esc; cbn [andb].
  2: { cbn. split; [reflexivity|]. split; [lia|].
       split; [|left; reflexivity].
       split; [intros [] | intros [E _]; discriminate E]. }
  destruct (Qlt_bool (now - _global_esc_last_hit_ts a) (35 # 100)) eqn:Hq;
    cbn [negb].
  - apply Qlt_bool_iff in Hq. cbn.
    split; [reflexivity|]. split; [lia|]. split; [|left; reflexivity].
    split; [intros [] | intros [_ [Hle _]]; lra].
  - apply Qlt_bool_false_iff in Hq.
    destruct running as [[|]|]; cbn;
      (split; [reflexivity|]); (split; [lia|]);
      (split; [|right; reflexivity]).
    + split; [intros _; auto | intros _; left; reflexivity].
    + split; [intros [] | intros [_ [_ E]]; discriminate E].
    + split; [intros [] | intros [_ [_ E]]; discriminate E].
Qed.

Lemma on_press_policy_witness :
  In StopRequested (trace_of (_on_press true 10 (Returned true) (init false))).
Proof.
  apply (proj2 (proj1 (proj2 (proj2
           (on_press_policy true 10 (Returned true) (init false)))))).
  repeat split. vm_compute. discriminate.
Defined.

(** X6.  The listener takes its time stamp before it looks at the worker:
    an Esc pressed while the worker is idle uses up the debounce
    interval, so an Esc pressed less than 0.35 s later is ignored even
    though the worker is running by then and no stop was requested. *)
Theorem on_press_idle_press_blocks (t1 t2 : Q) (running : outcome bool)
    (a : Application) :
  35 # 100 <= t1 - _global_esc_last_hit_ts a ->
  t2 - t1 < 35 # 100 ->
  let a1 := state_of (_on_press true t1 (Returned false) a) in
  trace_of (_on_press true t1 (Returned false) a) = []
  /\ _on_press true t2 running a1 = (Returned tt, a1, []).
Proof.
  intros H1 H2 a1. subst a1. rewrite !on_press_run.
  apply Qlt_bool_false_iff in H1. rewrite H1. cbn.
  split; [reflexivity|].
  apply Qlt_bool_iff in H2. rewrite H2. reflexivity.
Qed.

Lemma on_press_idle_press_blocks_witness :
  let a1 := state_of (_on_press true 100 (Returned false) (init false)) in
  _on_press true (100 + (3 # 10)) (Returned true) a1 = (Returned tt, a1, []).
Proof.
  intros a1.
  apply (on_press_idle_press_blocks 100 (100 + (3 # 10)) (Returned true)
           (init false)).
  - vm_compute. discriminate.
  - vm_compute. reflexivity.
Defined.

(** ** Arming and disarming *)

Lemma enable_run (rt : Runtime) (a : Application) :
  _enable_exclusive_esc_if_possible rt a =
  if negb (Hook.is_win32 (sys_platform rt)) then (Returned tt, a, [])
  else
    match _win_exclusive_esc a with
    | Some h =>
        (Returned tt, with_hook (Some (Hook.with_enabled true h)) a,
         [EscSetEnabled true])
    | None =>
        match _keyboard rt, _exclusive_esc_hotkey_id a with
        | Some kb, None =>
            match add_hotkey kb with
            | Returned hid =>
                (Returned tt, with_hotkey_id (Some hid) a, [KeyboardAddHotkey])
            | Raised =>
                (Returned tt, with_hotkey_id None a,
                 [KeyboardAddHotkey; Print (py "[WARN] 启用独占 Esc 失败: ")])
            end
        | _, _ => (Returned tt, a, [])
        end
    end.
Proof.
  unfold _enable_exclusive_esc_if_possible, is_win32, on_hook,
    Hook.set_enabled.
  run_prog.
  destruct (negb (Hook.is_win32 (sys_platform rt))); [reflexivity|].
  destruct (_win_exclusive_esc a) as [h|]; [reflexivity|].
  destruct (_keyboard rt) as [kb|]; [|reflexivity].
  destruct (_exclusive_esc_hotkey_id a); [reflexivity|].
  destruct (add_hotkey kb); reflexivity.
Qed.

(** X7.  The hotkey callback of the [keyboard] tier never raises; it
    first disarms (the hotkey is removed and forgotten) and then requests
    the stop, exactly once. *)
Theorem keyboard_on_esc_disarms_then_stops (rt : Runtime) (a : Application) :
  keyboard_on_esc rt a
  = (Returned tt, disarm rt a, disable_trace rt a ++ [StopRequested])
  /\ count_stop_requests (trace_of (keyboard_on_esc rt a)) = 1%nat
  /\ (_keyboard rt <> None ->
      _exclusive_esc_hotkey_id (state_of (keyboard_on_esc rt a)) = None)
  /\ (forall kb hid,
        _keyboard rt = Some kb -> _exclusive_esc_hotkey_id a = Some hid ->
        In (KeyboardRemoveHotkey hid) (disable_trace rt a)).
Proof.
  assert (E : keyboard_on_esc rt a
              = (Returned tt, disarm rt a,
                 disable_trace rt a ++ [StopRequested])).
  { unfold keyboard_on_esc. run_prog. rewrite disable_run. reflexivity. }
  split; [exact E|]. rewrite E. unfold trace_of, state_of. cbn [fst snd].
  split; [|split].
  - rewrite count_stop_requests_app.
    unfold disable_trace.
    destruct (_win_exclusive_esc a); destruct (_keyboard rt);
      destruct (_exclusive_esc_hotkey_id a); reflexivity.
  - intros Hk. unfold disarm.
    destruct (_keyboard rt); [|congruence].
    destruct (_win_exclusive_esc a); reflexivity.
  - intros kb hid Hk Hh. unfold disable_trace. rewrite Hk, Hh.
    apply in_or_app. right. left. reflexivity.
Qed.

Lemma keyboard_on_esc_disarms_then_stops_witness :
  let rt := {| sys_platform := "win32";
               _keyboard := Some {| add_hotkey := Returned 7%Z;
                                    remove_hotkey := fun _ => Raised |};
               _pynput_keyboard := None; has_log_message := true;
               has_on_worker_error := true; has_update_ui_state := true;
               unicode_lower := uncased_lower |} in
  let a := with_hotkey_id (Some 7%Z) (with_hook None (init false)) in
  _exclusive_esc_hotkey_id (state_of (keyboard_on_esc rt a)) = None.
Proof.
  intros rt a.
  apply (proj1 (proj2 (proj2 (keyboard_on_esc_disarms_then_stops rt a)))).
  discriminate.
Defined.

(** X8.  [_enable_exclusive_esc_if_possible] never raises, also when
    registering the hotkey raises, and arming followed by disarming
    always ends disarmed: from every state that has no hotkey registered,
    or whenever the [keyboard] module is there to remove it. *)
Theorem enable_then_disable_is_disarmed (rt : Runtime) (a : Application) :
  result_of (_enable_exclusive_esc_if_possible rt a) = Returned tt
  /\ (_exclusive_esc_hotkey_id a = None \/ _keyboard rt <> None ->
      disarmed
        (state_of (_disable_exclusive_esc rt
                     (state_of (_enable_exclusive_esc_if_possible rt a))))
      = true).
Proof.
  rewrite enable_run. split.
  - destruct (negb (Hook.is_win32 (sys_platform rt))); [reflexivity|].
    destruct (_win_exclusive_esc a); [reflexivity|].
    destruct (_keyboard rt) as [kb|]; [|reflexivity].
    destruct (_exclusive_esc_hotkey_id a); [reflexivity|].
    destruct (add_hotkey kb); reflexivity.
  - intros H. rewrite disable_run. unfold state_of at 1. cbn [fst snd].
    unfold disarmed, disarm.
    destruct a as [u l lt hk hook m]. cbn in *.
    destruct (negb (Hook.is_win32 (sys_platform rt)));
      destruct hook as [h|]; destruct (_keyboard rt) as [kb|];
      destruct hk as [hid|]; cbn;
      try reflexivity; try (destruct H; congruence);
      destruct (add_hotkey kb); reflexivity.
Qed.

Lemma enable_then_disable_is_disarmed_witness :
  disarmed
    (state_of (_disable_exclusive_esc windows_runtime
                 (state_of (_enable_exclusive_esc_if_possible windows_runtime
                              (init false)))))
  = true.
Proof.
  apply (proj2 (enable_then_disable_is_disarmed windows_runtime (init false))).
  left. reflexivity.
Defined.

(** X9.  With the hook object in place, arming on win32 is exactly one
    call of [set_enabled(True)]: the [keyboard] module is never asked,
    whether or not it is loaded, and arming twice leaves the same state
    as arming once. *)
Theorem enable_uses_native_hook_only
    (rt : Runtime) (a : Application) (h : Hook.EscHook) :
  Hook.is_win32 (sys_platform rt) = true ->
  _win_exclusive_esc a = Some h ->
  let r := _enable_exclusive_esc_if_possible rt a in
  trace_of r = [EscSetEnabled true]
  /\ _win_exclusive_esc (state_of r) = Some (Hook.with_enabled true h)
  /\ _exclusive_esc_hotkey_id (state_of r) = _exclusive_esc_hotkey_id a
  /\ state_of (_enable_exclusive_esc_if_possible rt (state_of r)) = state_of r.
Proof.
  intros Hw Hh r. subst r. rewrite !enable_run, Hw, Hh. cbn.
  repeat split.
Qed.

Lemma enable_uses_native_hook_only_witness :
  trace_of (_enable_exclusive_esc_if_possible windows_runtime (init false))
  = [EscSetEnabled true].
Proof.
  apply (enable_uses_native_hook_only windows_runtime (init false) Hook.init
           eq_refl eq_refl).
Defined.

(** ** Choosing the tier, and the life of the hook thread *)

Lemma setup_run (rt : Runtime) (a : Application) (h : Hook.EscHook) :
  Hook.is_win32 (sys_platform rt) = true ->
  _win_exclusive_esc a = Some h ->
  _setup_global_esc_support rt a =
  (Returned (Some true),
   with_hook (Some (state_of (Hook.start (sys_platform rt) h))) a,
   [AboutToQuitConnect; AboutToQuitConnect; AboutToQuitConnect]
     ++ trace_of (Hook.start (sys_platform rt) h)
     ++ (if has_log_message rt
         then [LogMessage (py "已启用独占 Esc（内置实现）：阅卷进行中按 Esc 会停止，且不会传给其它程序。")]
         else [])).
Proof.
  intros Hw Hh.
  unfold _setup_global_esc_support, is_win32, log_message, on_hook.
  run_prog. rewrite Hw. cbn. rewrite Hh, !start_run, Hw.
  destruct (Hook._thread h); cbn; destruct (has_log_message rt); reflexivity.
Qed.

(** X10.  On win32 with the hook object in place,
    [_setup_global_esc_support] always settles on the native hook:
    [start()] reports success, so neither the [keyboard] notice nor the
    [pynput] listener is ever set up, whether those modules are loaded or
    not; the hook thread is started when it was not running and never a
    second time. *)
Theorem setup_always_takes_native_hook
    (rt : Runtime) (a : Application) (h : Hook.EscHook) :
  Hook.is_win32 (sys_platform rt) = true ->
  _win_exclusive_esc a = Some h ->
  let r := _setup_global_esc_support rt a in
  result_of r = Returned (Some true)
  /\ count_events is_thread_start (trace_of r)
     = match Hook._thread h with None => 1%nat | Some _ => 0%nat end
  /\ ~ In ListenerStart (trace_of r)
  /\ ~ In KeyboardAddHotkey (trace_of r)
  /\ _global_esc_listener (state_of r) = _global_esc_listener a
  /\ _exclusive_esc_hotkey_id (state_of r) = _exclusive_esc_hotkey_id a
  /\ count_events is_thread_start
       (trace_of (_setup_global_esc_support rt (state_of r))) = 0%nat.
Proof.
  intros Hw Hh r. subst r. rewrite (setup_run rt a h Hw Hh).
  unfold result_of, state_of, trace_of. cbn [fst snd].
  rewrite (setup_run rt
             (with_hook (Some (snd (fst (Hook.start (sys_platform rt) h)))) a)
             (snd (fst (Hook.start (sys_platform rt) h))) Hw eq_refl).
  cbn [fst snd]. rewrite !start_run, Hw.
  destruct (Hook._thread h) eqn:Ht; cbn [fst snd]; rewrite ?start_run, ?Hw;
    cbn [Hook._thread Hook.with_thread]; rewrite ?Ht;
    destruct (has_log_message rt); cbn;
    repeat split; try reflexivity;
    intros F; repeat (destruct F as [F|F]; [discriminate F|]); exact F.
Qed.

Lemma setup_always_takes_native_hook_witness :
  let rt := {| sys_platform := "win32";
               _keyboard := Some {| add_hotkey := Returned 7%Z;
                                    remove_hotkey := fun _ => Returned tt |};
               _pynput_keyboard := Some {| listener_start := Returned tt |};
               has_log_message := true; has_on_worker_error := true;
               has_update_ui_state := true;
               unicode_lower := uncased_lower |} in
  result_of (_setup_global_esc_support rt (init false)) = Returned (Some true).
Proof.
  intros rt.
  apply (setup_always_takes_native_hook rt (init false) Hook.init
           eq_refl eq_refl).
Defined.

(** X11.  A run of the hook thread's main function, from start to the
    end of its [finally] block, calls [SetWindowsHookExW] exactly once
    and [UnhookWindowsHookEx] exactly once when a hook was obtained, and
    never when [SetWindowsHookExW] gave 0; either way the handle is
    [None] at the end, the thread id is recorded, and the armed flag, the
    debounce time stamp and the thread object are untouched. *)
Theorem thread_main_releases_hook (tid hhook : Z) (h : Hook.EscHook) :
  let r := _thread_main tid hhook h in
  result_of r = Returned tt
  /\ count_events is_hook_install (trace_of r) = 1%nat
  /\ count_events is_unhook (trace_of r)
     = (if (hhook =? 0)%Z then 0%nat else 1%nat)
  /\ Hook._hook_handle (state_of r) = None
  /\ Hook._thread_id (state_of r) = tid
  /\ Hook._enabled (state_of r) = Hook._enabled h
  /\ Hook._last_hit_ts (state_of r) = Hook._last_hit_ts h
  /\ Hook._thread (state_of r) = Hook._thread h.
Proof.
  intros r. subst r.
  unfold _thread_main, Hook._thread_main_enter, Hook._thread_main_leave,
    Hook.handle_truthy.
  run_prog. cbn. destruct (hhook =? 0)%Z eqn:E; cbn; rewrite ?E; cbn;
    repeat split; reflexivity.
Qed.

(** X12.  [stop()] changes nothing of the hook object and posts
    [WM_QUIT] only on win32 and only once the hook thread has recorded
    its id: called right after [start()], before the thread has run, it
    does nothing at all. *)
Theorem stop_before_thread_ran_is_silent (platform : string) (h : Hook.EscHook) :
  (forall h', state_of (Hook.stop platform h') = h'
              /\ result_of (Hook.stop platform h') = Returned tt)
  /\ (Hook._thread_id h = 0%Z ->
      trace_of (Hook.stop platform (state_of (Hook.start platform h))) = [])
  /\ (Hook.is_win32 platform = true -> Hook._thread_id h <> 0%Z ->
      trace_of (Hook.stop platform h) = [PostThreadMessageW_QUIT])
  /\ (Hook.is_win32 platform = false -> trace_of (Hook.stop platform h) = []).
Proof.
  split; [|split; [|split]].
  - intros h'. unfold Hook.stop. run_prog.
    destruct (negb (Hook.is_win32 platform)); cbn; [auto|].
    destruct (negb (Hook._thread_id h' =? 0)%Z); cbn; auto.
  - intros Hid. rewrite start_run. unfold Hook.stop. run_prog.
    destruct (Hook.is_win32 platform); cbn; [|reflexivity].
    destruct (Hook._thread h); cbn; rewrite Hid; reflexivity.
  - intros Hw Hid. unfold Hook.stop. run_prog. rewrite Hw. cbn.
    destruct (Z.eqb_spec (Hook._thread_id h) 0); [contradiction|].
    reflexivity.
  - intros Hw. unfold Hook.stop. run_prog. rewrite Hw. reflexivity.
Qed.

Lemma stop_before_thread_ran_is_silent_witness :
  trace_of (Hook.stop "win32" (state_of (Hook.start "win32" Hook.init))) = []
  /\ trace_of (Hook.stop "win32"
                 (state_of (Hook._thread_main_enter 9 77
                              (state_of (Hook.start "win32" Hook.init)))))
     = [PostThreadMessageW_QUIT].
Proof.
  split.
  - apply (proj1 (proj2 (stop_before_thread_ran_is_silent "win32" Hook.init))).
    reflexivity.
  - apply (proj1 (proj2 (proj2 (stop_before_thread_ran_is_silent "win32"
             (state_of (Hook._thread_main_enter 9 77
                          (state_of (Hook.start "win32" Hook.init))))))));
      [reflexivity | discriminate].
Defined.

(** ** A key that is held *)

Lemma burst_run (h : Hook.EscHook) (t1 : Q) (ts : list Q) :
  Hook._enabled h = true ->
  Hook._last_hit_ts h = t1 ->
  Forall (fun t => t - t1 < 1 # 4) ts ->
  Hook.run_keys (List.map Hook.esc_press ts) h
  = (Returned (repeat Hook.Swallow (List.length ts)), h, []).
Proof.
  intros He Hl H. induction H as [|t ts Ht _ IH]; [reflexivity|].
  cbn [List.map Hook.run_keys List.length repeat]. unfold bind, ret.
  rewrite (press_run h t He), Hl.
  replace (Qle_bool (1 # 4) (t - t1)) with false.
  - rewrite IH. reflexivity.
  - symmetry. apply not_true_is_false. intros E.
    apply Qle_bool_iff in E. lra.
Qed.

(** X13.  While armed, a press that is accepted and any number of
    repeats less than 250 ms after it (a held key) are all swallowed and
    yield exactly one stop request; the debounce time stamp stays at the
    accepted press. *)
Theorem held_key_one_stop_request (h : Hook.EscHook) (t1 : Q) (ts : list Q) :
  Hook._enabled h = true ->
  1 # 4 <= t1 - Hook._last_hit_ts h ->
  Forall (fun t => t - t1 < 1 # 4) ts ->
  Hook.run_keys (List.map Hook.esc_press (t1 :: ts)) h
  = (Returned (repeat Hook.Swallow (S (List.length ts))),
     Hook.with_last_hit_ts t1 h, [StopRequested]).
Proof.
  intros He Hd H. apply Qle_bool_iff in Hd.
  cbn [List.map Hook.run_keys List.length repeat]. unfold bind, ret.
  rewrite (press_run h t1 He), Hd.
  rewrite (burst_run (Hook.with_last_hit_ts t1 h) t1 ts He eq_refl H).
  reflexivity.
Qed.

Lemma held_key_one_stop_request_witness :
  count_stop_requests
    (trace_of (Hook.run_keys
                 (List.map Hook.esc_press
                    [5; 5 + (3 # 100); 5 + (6 # 100); 5 + (24 # 100)])
                 (Hook.with_enabled true Hook.init))) = 1%nat.
Proof.
  rewrite (held_key_one_stop_request (Hook.with_enabled true Hook.init) 5
             [5 + (3 # 100); 5 + (6 # 100); 5 + (24 # 100)]).
  - reflexivity.
  - reflexivity.
  - vm_compute. discriminate.
  - repeat constructor.
Defined.

(** ** A hook that could not be installed *)

Section Unhooked.
Variable rt : Runtime.

Lemma unhooked_ext (a s : Application) :
  _win_exclusive_esc s = _win_exclusive_esc a ->
  _exclusive_esc_hotkey_id s = _exclusive_esc_hotkey_id a ->
  unhooked a -> unhooked s.
Proof.
  intros Eh Ek [[h [Hh Ht]] Hk]. split; [exists h|]; split || idtac;
    congruence.
Qed.

Lemma disarm_unhooked (a : Application) : unhooked a -> unhooked (disarm rt a).
Proof.
  intros [[h [Hh Ht]] Hk]. unfold disarm. rewrite Hh.
  split.
  - exists (Hook.with_enabled false h).
    destruct (_keyboard rt); cbn; auto.
  - destruct (_keyboard rt); cbn; auto.
Qed.

Lemma deliver_unhooked (now : Q) (sig : TerminalSignal) (a : Application) :
  unhooked a -> unhooked (state_of (deliver rt now sig a)).
Proof.
  intros Hu. rewrite deliver_run.
  assert (Hs : forall b, unhooked b -> unhooked (state_of (slot rt now sig b))).
  { intros b Hb. destruct (slot_state rt now sig b) as [Eh [Ek _]].
    exact (unhooked_ext (disarm rt b) _ Eh Ek (disarm_unhooked b Hb)). }
  destruct sig; unfold state_of at 1; cbn [fst snd];
    auto using disarm_unhooked.
Qed.

Lemma exec_op_unhooked (op : Op) (a : Application) :
  unhooked a -> is_thread_enter op = false ->
  exists o s t,
    exec_op rt op a = (Returned o, s, t) /\ unhooked s /\ o <> KeySwallowed.
Proof.
  intros Hu Hop. pose proof Hu as [[h [Hh Ht]] Hk].
  destruct op as [| | | | | |now sig|tid hhook| |k|b];
    try discriminate Hop; cbn [exec_op].
  - (* OpSetup *)
    destruct (Hook.is_win32 (sys_platform rt)) eqn:Hw.
    + unfold bind, ret. rewrite (setup_run rt a h Hw Hh).
      eexists _, _, _. split; [reflexivity|]. split; [|discriminate].
      split; [|exact Hk]. eexists. split; [reflexivity|].
      rewrite start_run, Hw. destruct (Hook._thread h); exact Ht.
    + unfold _setup_global_esc_support, is_win32. rewrite Hw. cbn.
      eexists _, _, _. split; [reflexivity|]. split; [exact Hu|discriminate].
  - (* OpStart *)
    unfold on_hook. run_prog. rewrite Hh, start_run.
    destruct (Hook.is_win32 (sys_platform rt)); [destruct (Hook._thread h)|];
      eexists _, _, _; (split; [reflexivity|]);
      (split; [|discriminate]); (split; [|exact Hk]);
      eexists; (split; [reflexivity|]); exact Ht.
  - (* OpEnable *)
    unfold bind, ret. rewrite enable_run, Hh.
    destruct (negb (Hook.is_win32 (sys_platform rt)));
      eexists _, _, _; (split; [reflexivity|]); (split; [|discriminate]).
    + exact Hu.
    + split; [|exact Hk]. eexists. split; [reflexivity|]. exact Ht.
  - (* OpDisable *)
    unfold bind, ret. rewrite disable_run.
    eexists _, _, _. split; [reflexivity|]. split; [|discriminate].
    apply disarm_unhooked. exact Hu.
  - (* OpStop *)
    unfold _stop_windows_exclusive_esc, on_hook, Hook.stop. run_prog.
    rewrite Hh.
    destruct (negb (Hook.is_win32 (sys_platform rt))); cbn;
      [|destruct (negb (Hook._thread_id h =? 0)%Z); cbn];
      eexists _, _, _; (split; [reflexivity|]); (split; [|discriminate]);
      (split; [|exact Hk]); eexists; (split; [reflexivity|]); exact Ht.
  - (* OpStopListener *)
    unfold _stop_global_esc_listener. run_prog.
    destruct (_global_esc_listener a);
      eexists _, _, _; (split; [reflexivity|]);
      (split; [exact Hu|discriminate]).
  - (* OpSignal *)
    pose proof (deliver_unhooked now sig a Hu) as Hs.
    pose proof (deliver_returns rt now sig a) as E.
    unfold bind, ret.
    destruct (deliver rt now sig a) as [[o1 s1] t1].
    unfold state_of, trace_of in *. cbn [fst snd] in *.
    injection E as ->.
    eexists _, _, _. split; [reflexivity|]. split; [exact Hs|discriminate].
  - (* OpHookThreadLeave *)
    unfold hook_thread_started, on_hook, Hook._thread_main_leave. run_prog.
    rewrite Hh. destruct (Hook._thread h); cbn; rewrite ?Ht; cbn;
      eexists _, _, _; (split; [reflexivity|]); (split; [|discriminate]).
    + split; [|exact Hk]. eexists. split; [reflexivity|]. reflexivity.
    + exact Hu.
  - (* OpKey *)
    unfold dispatch_key, listen_key. run_prog. rewrite Hh, Ht. cbn.
    rewrite Hk.
    destruct (_global_esc_listener a); cbn.
    + rewrite on_press_run.
      destruct (Hook.is_esc_keydown k
                && negb (Qlt_bool (Hook.now (Hook.env k)
                                   - _global_esc_last_hit_ts a) (35 # 100)));
        eexists _, _, _; (split; [reflexivity|]); (split; [|discriminate]).
      * split; [|exact Hk]. exists h. auto.
      * exact Hu.
    + eexists _, _, _. split; [reflexivity|]. split; [exact Hu|discriminate].
  - (* OpWindowMinimized *)
    eexists _, _, _. split; [reflexivity|]. split; [|discriminate].
    split; [|exact Hk]. exists h. auto.
Qed.

Lemma run_ops_unhooked (ops : list Op) (a : Application) :
  unhooked a -> forallb (fun op => negb (is_thread_enter op)) ops = true ->
  exists obs,
    result_of (run_ops rt ops a) = Returned obs /\ ~ In KeySwallowed obs.
Proof.
  revert a. induction ops as [|op ops IH]; intros a Hu Hops.
  - exists []. split; [reflexivity|]. intros [].
  - cbn [forallb] in Hops. apply andb_true_iff in Hops as [Hop Hops].
    apply negb_true_iff in Hop.
    destruct (exec_op_unhooked op a Hu Hop) as [o [s [t [E [Hs Ho]]]]].
    destruct (IH s Hs Hops) as [obs [Er Hn]].
    exists (o :: obs). cbn [run_ops]. unfold bind, ret. rewrite E.
    destruct (run_ops rt ops s) as [[r s'] t'].
    unfold result_of in *. cbn [fst] in *. subst r. cbn.
    split; [reflexivity|]. intros [F|F]; [congruence|contradiction].
Qed.
End Unhooked.

(** X14.  When [SetWindowsHookExW] gives 0, the hook thread ends with no
    handle kept; from then on, whatever the application does (arming on
    worker start, signals, further [start()] calls, set-up) and as long
    as no new hook thread installs a hook, no key event is ever
    swallowed. *)
Theorem failed_install_never_swallows
    (rt : Runtime) (tid : Z) (minimized : bool) (ops : list Op) :
  forallb (fun op => negb (is_thread_enter op)) ops = true ->
  let a1 := state_of (run_ops rt [OpStart; OpHookThreadEnter tid 0]
                        (init minimized)) in
  unhooked a1
  /\ exists obs,
       result_of (run_ops rt ops a1) = Returned obs
       /\ ~ In KeySwallowed obs.
Proof.
  intros Hops a1.
  assert (Hu : unhooked a1).
  { subst a1. cbn [run_ops exec_op]. unfold on_hook, hook_thread_started.
    run_prog. cbn. rewrite start_run.
    destruct (Hook.is_win32 (sys_platform rt)); cbn;
      (split; [eexists; split; reflexivity | reflexivity]). }
  split; [exact Hu|]. exact (run_ops_unhooked rt ops a1 Hu Hops).
Qed.

Lemma failed_install_never_swallows_witness :
  let a1 := state_of (run_ops windows_runtime [OpStart; OpHookThreadEnter 9 0]
                        (init false)) in
  exists obs,
    result_of (run_ops windows_runtime
                 [OpEnable; OpKey (Hook.esc_press 5); OpStart;
                  OpKey (Hook.esc_press 6)] a1) = Returned obs
    /\ ~ In KeySwallowed obs.
Proof.
  intros a1.
  exact (proj2 (failed_install_never_swallows windows_runtime 9 false
                  [OpEnable; OpKey (Hook.esc_press 5); OpStart;
                   OpKey (Hook.esc_press 6)] eq_refl)).
Defined.

(** ** After a dialog *)

Lemma ends_with_two (A : Type) (l : list A) (x y : A) :
  firstn 2 (rev l) = [y; x] -> exists pre, l = pre ++ [x; y].
Proof.
  intros H. destruct (rev l) as [|y' [|x' r]] eqn:E; try discriminate H.
  cbn in H. injection H as -> ->.
  exists (rev r). rewrite <- (rev_involutive l), E. cbn.
  rewrite <- app_assoc. reflexivity.
Qed.

Section SlotsAfterDialog.
Variable rt : Runtime.

Ltac slot_unfold :=
  unfold show_completion_notification, show_error_notification,
    show_threshold_exceeded_notification,
    show_manual_intervention_notification, report_worker_error,
    update_ui_state_not_running, restore_main_window, isMinimized,
    showNormal;
  run_prog; rewrite !disable_run.

Ltac window_cases a :=
  destruct (has_on_worker_error rt); destruct (has_update_ui_state rt);
  cbn;
  let Hm := fresh "Hm" in
  destruct (main_window_minimized (disarm rt a)) eqn:Hm; cbn;
  rewrite ?Hm; cbn;
  (split; [apply ends_with_two; rewrite rev_app_distr; reflexivity|]);
  (split; [reflexivity || assumption|]);
  try (intros _; apply in_or_app; right; cbn; tauto);
  try (intros F; discriminate F).

(** X15.  Whenever a slot shows its dialog, its last two calls are
    [raise_()] and [activateWindow()] on the main window, the window is
    not minimised afterwards, and a window that was minimised has been
    restored with [showNormal()]. *)
Theorem slots_restore_main_window
    (now : Q) (sig : TerminalSignal) (a : Application) :
  presented a now sig = true ->
  let r := slot rt now sig a in
  (exists pre, trace_of r = pre ++ [RaiseWindow; ActivateWindow])
  /\ main_window_minimized (state_of r) = false
  /\ (main_window_minimized a = true -> In ShowNormal (trace_of r)).
Proof.
  rewrite <- (disarm_minimized rt a).
  destruct sig as [|msg|reason|msg raw]; cbn [slot presented]; intros Hp.
  - slot_unfold. window_cases a.
  - unfold error_presented in Hp.
    apply andb_true_iff in Hp as [Hp Hs].
    apply andb_true_iff in Hp as [Hw Hm].
    apply negb_true_iff in Hw, Hm, Hs.
    slot_unfold. rewrite disarm_suppress_until, Hw, Hm, Hs.
    window_cases a.
  - slot_unfold. window_cases a.
  - slot_unfold. window_cases a.
Qed.
End SlotsAfterDialog.

Lemma slots_restore_main_window_witness :
  main_window_minimized
    (state_of (slot windows_runtime 3 (ThresholdExceeded (py "x")) (init true)))
  = false.
Proof.
  apply (slots_restore_main_window windows_runtime 3
           (ThresholdExceeded (py "x")) (init true)).
  reflexivity.
Defined.

(** X16.  Only a ManualIntervention moves the deadline of the
    suppression window: delivering Completed, Error or ThresholdExceeded
    leaves it as it was.  So an Error that follows a ThresholdExceeded is
    not suppressed: unless its text has a silencing pattern, the two
    deliveries show two dialogs. *)
Theorem threshold_opens_no_window
    (rt : Runtime) (t1 t2 : Q) (reason err : pystr) (a : Application) :
  _suppress_error_dialog_until a <= t2 ->
  any_in keys_manual_review err = false ->
  is_user_stop err = false ->
  (forall now sig,
     (forall m raw, sig <> ManualIntervention m raw) ->
     _suppress_error_dialog_until (state_of (deliver rt now sig a))
     = _suppress_error_dialog_until a)
  /\ count_dialogs
       (trace_of (run_signals rt
                    [(t1, ThresholdExceeded reason); (t2, Error err)] a))
     = 2%nat.
Proof.
  intros Hw Hm Hs. split.
  - intros now sig Hsig. rewrite deliver_suppress_until.
    destruct sig as [| | |m raw]; try reflexivity.
    exfalso. exact (Hsig m raw eq_refl).
  - rewrite !run_signals_cons_dialogs. cbn [presented].
    unfold error_presented. rewrite deliver_suppress_until.
    apply Qlt_bool_false_iff in Hw. rewrite Hw, Hm, Hs. reflexivity.
Qed.

Lemma threshold_opens_no_window_witness :
  count_dialogs
    (trace_of (run_signals windows_runtime
                 [(1000, ThresholdExceeded (py "分差过大"));
                  (1000 + (1 # 2), Error (py "双评分差过大"))] (init false)))
  = 2%nat.
Proof.
  assert (Hw : _suppress_error_dialog_until (init false) <= 1000 + (1 # 2))
    by (vm_compute; discriminate).
  exact (proj2 (threshold_opens_no_window windows_runtime 1000
                  (1000 + (1 # 2)) (py "分差过大") (py "双评分差过大")
                  (init false) Hw eq_refl eq_refl)).
Defined.

(** ** The connection manager *)

Lemma same_key_eq (c d : Signals.Connection) :
  Signals.same_key c d = true <-> c = d.
Proof.
  destruct c as [c1 c2], d as [d1 d2]. unfold Signals.same_key. cbn.
  rewrite andb_true_iff, !Nat.eqb_eq. split.
  - intros [-> ->]. reflexivity.
  - intros E. injection E as -> ->. auto.
Qed.

Lemma existsb_same_key (c : Signals.Connection) (l : list Signals.Connection) :
  existsb (Signals.same_key c) l = true <-> In c l.
Proof.
  rewrite existsb_exists. split.
  - intros [d [Hd E]]. apply same_key_eq in E. subst d. exact Hd.
  - intros H. exists c. split; [exact H|]. apply same_key_eq. reflexivity.
Qed.

(** X17.  The manager never records a pair twice.  Connecting a pair
    that is already recorded makes no Qt call and changes nothing.  For a
    new pair the manager first disconnects it and then connects it, and
    records it, at the end of the list, exactly when [signal.connect]
    returned; a failing [connect] is caught and nothing is recorded. *)
Theorem connect_records_once
    (qt : Signals.Qt) (c : Signals.Connection)
    (connections : list Signals.Connection) :
  let r := Signals.connect qt c connections in
  (NoDup connections -> NoDup (state_of r))
  /\ (In c connections -> r = (Returned tt, connections, []))
  /\ (~ In c connections ->
      Signals.disconnect_result qt c <> Signals.DisconnectFault ->
      (Signals.connect_result qt c = Returned tt ->
       r = (Returned tt, connections ++ [c],
            [Signals.QtDisconnect c; Signals.QtConnect c]))
      /\ (Signals.connect_result qt c = Raised ->
          r = (Returned tt, connections,
               [Signals.QtDisconnect c; Signals.QtConnect c;
                Signals.PrintConnectFailed]))).
Proof.
  intros r. subst r. unfold Signals.connect. run_prog.
  destruct (existsb (Signals.same_key c) connections) eqn:Hin.
  - apply existsb_same_key in Hin. cbn.
    split; [auto|]. split; [reflexivity|]. contradiction.
  - assert (Hn : ~ In c connections).
    { intros H. apply existsb_same_key in H. congruence. }
    assert (Hnew : NoDup connections -> NoDup (connections ++ [c])).
    { intros Hnd. apply NoDup_app; [exact Hnd| |].
      - constructor; [intros []|constructor].
      - intros x Hx [<-|[]]. contradiction. }
    split; [|split; [contradiction|]].
    + intros Hnd.
      destruct (Signals.disconnect_result qt c); cbn; try exact Hnd;
        destruct (Signals.connect_result qt c) as [[]|]; cbn; auto.
    + intros _ Hf. split; intros Hc; rewrite Hc;
        destruct (Signals.disconnect_result qt c); try congruence;
        reflexivity.
Qed.

Lemma connect_records_once_witness :
  let qt := {| Signals.disconnect_result := fun _ => Signals.NotConnected;
               Signals.connect_result := fun _ => Returned tt |} in
  NoDup (state_of (Signals.connect qt (3, 4)%nat [(1, 2); (3, 5)]%nat))
  /\ Signals.connect qt (1, 2)%nat [(1, 2); (3, 5)]%nat
     = (Returned tt, [(1, 2); (3, 5)]%nat, []).
Proof.
  intros qt. split.
  - apply (proj1 (connect_records_once qt (3, 4)%nat [(1, 2); (3, 5)]%nat)).
    repeat constructor; cbn; intuition discriminate.
  - apply (proj1 (proj2 (connect_records_once qt (1, 2)%nat
                           [(1, 2); (3, 5)]%nat))).
    left. reflexivity.
Defined.

Lemma disconnect_each_run (qt : Signals.Qt) (todo : list Signals.Connection)
    (d f : nat) (s : list Signals.Connection) :
  Signals.no_fault qt todo = true ->
  exists d' f',
    Signals.disconnect_each qt todo d f s
    = (Returned (d', f'), s, List.map Signals.QtDisconnect todo)
    /\ (d' + f' = d + f + List.length todo)%nat.
Proof.
  revert d f. induction todo as [|c rest IH]; intros d f Hnf.
  - exists d, f. cbn. split; [reflexivity|lia].
  - cbn [Signals.no_fault forallb] in Hnf.
    apply andb_true_iff in Hnf as [Hc Hrest].
    cbn [Signals.disconnect_each List.map List.length].
    unfold bind, emit.
    destruct (Signals.disconnect_result qt c) eqn:Ec; try discriminate Hc.
    + destruct (IH (S d) f Hrest) as [d' [f' [E Hsum]]].
      exists d', f'. rewrite E. cbn. split; [reflexivity|lia].
    + destruct (IH d (S f) Hrest) as [d' [f' [E Hsum]]].
      exists d', f'. rewrite E. cbn. split; [reflexivity|lia].
Qed.

(** X18.  When no [disconnect] fails with an exception other than
    [TypeError] or [RuntimeError], [disconnect_all] returns, tries to
    disconnect every recorded pair once, in the order recorded, leaves
    the record empty, and prints its summary only if some pair was
    already disconnected, with counts that add up to the number of
    pairs.  When the first [disconnect] fails with another exception,
    that exception escapes and the record is not cleared. *)
Theorem disconnect_all_clears
    (qt : Signals.Qt) (connections : list Signals.Connection) :
  (Signals.no_fault qt connections = true ->
   let r := Signals.disconnect_all qt connections in
   result_of r = Returned tt
   /\ state_of r = []
   /\ filter Signals.is_qt_disconnect (trace_of r)
      = List.map Signals.QtDisconnect connections
   /\ (forall d f, In (Signals.PrintSummary d f) (trace_of r) ->
       (0 < f)%nat /\ (d + f = List.length connections)%nat))
  /\ (forall c rest,
        connections = c :: rest ->
        Signals.disconnect_result qt c = Signals.DisconnectFault ->
        Signals.disconnect_all qt connections
        = (Raised, connections, [Signals.QtDisconnect c])).
Proof.
  split.
  - intros Hnf r. subst r.
    destruct (disconnect_each_run qt connections 0 0 connections Hnf)
      as [d [f [E Hsum]]].
    unfold Signals.disconnect_all. run_prog. rewrite E.
    assert (Hf : filter Signals.is_qt_disconnect
                   (List.map Signals.QtDisconnect connections)
                 = List.map Signals.QtDisconnect connections).
    { clear. induction connections as [|c l IH]; cbn; [reflexivity|].
      rewrite IH. reflexivity. }
    destruct f as [|f0]; cbn.
    + rewrite app_nil_r. repeat split; try exact Hf;
        apply in_map_iff in H as [x [Hx _]]; discriminate Hx.
    + rewrite filter_app, Hf. cbn. rewrite app_nil_r.
      repeat split;
        (apply in_app_or in H as [H|[H|[]]];
         [apply in_map_iff in H as [x [Hx _]]; discriminate Hx
         |injection H as <- <-; lia]).
  - intros c rest -> Hc. unfold Signals.disconnect_all. run_prog.
    cbn. rewrite Hc. reflexivity.
Qed.

Lemma disconnect_all_clears_witness :
  let qt := {| Signals.disconnect_result :=
                 fun c => if (fst c =? 1)%nat then Signals.NotConnected
                          else Signals.Disconnected;
               Signals.connect_result := fun _ => Returned tt |} in
  state_of (Signals.disconnect_all qt [(1, 2); (3, 5)]%nat) = [].
Proof.
  intros qt.
  apply (proj1 (disconnect_all_clears qt [(1, 2); (3, 5)]%nat) eq_refl).
Defined.

(** ** The rows of the Excel record *)

Lemma contains_single (c : N) (s : pystr) :
  contains [c] s = true <-> In c s.
Proof.
  induction s as [|d s IH]; cbn.
  - split; [discriminate|intros []].
  - rewrite andb_true_r, orb_true_iff, IH, N.eqb_eq.
    split; intros [H|H]; auto.
Qed.

Lemma split_on_nonempty (sep : N) (s : pystr) : Records.split_on sep s <> [].
Proof.
  induction s as [|c r IH]; cbn; [discriminate|].
  destruct (c =? sep)%N; [discriminate|].
  destruct (Records.split_on sep r); discriminate.
Qed.

Lemma split_on_absent (sep : N) (s : pystr) :
  ~ In sep s -> Records.split_on sep s = [s].
Proof.
  induction s as [|c r IH]; intros Hn; cbn; [reflexivity|].
  destruct (N.eqb_spec c sep) as [->|Hne].
  - exfalso. apply Hn. left. reflexivity.
  - rewrite IH; [reflexivity|]. intros H. apply Hn. right. exact H.
Qed.

Lemma split_on_first (sep : N) (d t : pystr) :
  ~ In sep d ->
  Records.split_on sep (d ++ sep :: t) = d :: Records.split_on sep t.
Proof.
  induction d as [|c r IH]; intros Hn; cbn.
  - rewrite N.eqb_refl. reflexivity.
  - destruct (N.eqb_spec c sep) as [->|Hne].
    + exfalso. apply Hn. left. reflexivity.
    + rewrite IH; [reflexivity|]. intros H. apply Hn. right. exact H.
Qed.

Lemma split_on_two_fields (sep : N) (s : pystr) :
  In sep s -> (2 <= List.length (Records.split_on sep s))%nat.
Proof.
  induction s as [|c r IH]; intros H; [destruct H|].
  cbn. destruct (N.eqb_spec c sep) as [->|Hne].
  - pose proof (split_on_nonempty sep r).
    destruct (Records.split_on sep r); [congruence|]. cbn. lia.
  - destruct H as [H|H]; [congruence|]. specialize (IH H).
    destruct (Records.split_on sep r); cbn in *; lia.
Qed.

Lemma formatted_summary_time_returns (timestamp_raw : pystr) :
  exists text, Records.formatted_summary_time timestamp_raw = Returned text.
Proof.
  unfold Records.formatted_summary_time.
  destruct (contains [Records.UNDERSCORE] timestamp_raw) eqn:Hc;
    [|eexists; reflexivity].
  apply contains_single in Hc.
  pose proof (split_on_two_fields _ _ Hc) as Hlen.
  destruct (Records.split_on Records.UNDERSCORE timestamp_raw)
    as [|f [|g fs]]; cbn in Hlen; try lia.
  cbn [nth_error]. destruct (List.length g =? 6)%nat; eexists; reflexivity.
Qed.

(** X19.  Formatting the time of a summary never fails: the field after
    the first underscore is only read when the stamp has an underscore.
    A stamp [date_HHMMSS] whose time field has exactly six code points
    gives [HH点MM分SS秒]; a time field of any other length is shown as it
    is; a stamp without underscore is shown whole. *)
Theorem formatted_summary_time_total (timestamp_raw : pystr) :
  (exists text, Records.formatted_summary_time timestamp_raw = Returned text)
  /\ (~ In Records.UNDERSCORE timestamp_raw ->
      Records.formatted_summary_time timestamp_raw = Returned timestamp_raw)
  /\ (forall d t,
        timestamp_raw = d ++ Records.UNDERSCORE :: t ->
        ~ In Records.UNDERSCORE d -> ~ In Records.UNDERSCORE t ->
        Records.formatted_summary_time timestamp_raw
        = Returned
            (if (List.length t =? 6)%nat
             then firstn 2 t ++ py "点" ++ firstn 2 (skipn 2 t) ++ py "分"
                    ++ firstn 2 (skipn 4 t) ++ py "秒"
             else t)).
Proof.
  split; [apply formatted_summary_time_returns|].
  unfold Records.formatted_summary_time.
  split.
  - intros Hn.
    destruct (contains [Records.UNDERSCORE] timestamp_raw) eqn:Hc;
      [|reflexivity].
    apply contains_single in Hc. contradiction.
  - intros d t -> Hd Ht.
    replace (contains [Records.UNDERSCORE] (d ++ Records.UNDERSCORE :: t))
      with true
      by (symmetry; apply contains_single; apply in_or_app; right; left;
          reflexivity).
    rewrite (split_on_first _ d t Hd), (split_on_absent _ t Ht).
    cbn [nth_error]. destruct (List.length t =? 6)%nat; reflexivity.
Qed.

Lemma formatted_summary_time_total_witness :
  Records.formatted_summary_time (py "20250920_101530")
  = Returned (py "10点15分30秒").
Proof.
  rewrite (proj2 (proj2 (formatted_summary_time_total (py "20250920_101530")))
             (py "20250920") (py "101530") eq_refl).
  - reflexivity.
  - vm_compute. intuition discriminate.
  - vm_compute. intuition discriminate.
Defined.




(** ** The global exception hook *)

Ltac hook_unfold :=
  unfold ExcHook.handle_exception, ExcHook.write_log, ExcHook.tell_ui,
    ExcHook.show_fatal, result_of, trace_of, state_of, try_except, bind,
    when, emit, call, modify, get, ret.

(** X21.  The exception hook contains every failure of its own steps.
    For an exception whose text can be taken ([str(exc_value)] returns),
    the hook returns whatever the log directory, the log file, the log
    panel, the dialog's constructor and the dialog itself do.  The
    interpreter's default hook is called exactly for a
    [KeyboardInterrupt], and then nothing else is done.  Otherwise at
    most one dialog is run, it carries the teacher's sentence for the
    exception text, it is run exactly when its constructor returned, and
    the console line with the exception text is printed exactly when the
    constructor or the dialog raised: the failure is always reported
    through one of the two. *)
Theorem handle_exception_contained
    (ul : pystr -> N -> pystr -> pystr) (env : ExcHook.Env)
    (log_file : option pystr) (text : pystr) :
  ExcHook.str_exc_value env = Returned text ->
  let run := ExcHook.handle_exception ul env log_file in
  result_of run = Returned tt
  /\ (In ExcHook.DefaultExcepthook (trace_of run)
      <-> ExcHook.is_keyboard_interrupt env = true)
  /\ (ExcHook.is_keyboard_interrupt env = true ->
      trace_of run = [ExcHook.DefaultExcepthook])
  /\ (ExcHook.is_keyboard_interrupt env = false ->
      (List.length (filter ExcHook.is_fatal_dialog (trace_of run)) <= 1)%nat
      /\ (forall d, In (ExcHook.ExecFatalDialog d) (trace_of run) ->
            d = ExcHook.fatal_dialog (_simplify_for_teacher ul text))
      /\ (In (ExcHook.ExecFatalDialog
                (ExcHook.fatal_dialog (_simplify_for_teacher ul text)))
             (trace_of run)
          <-> ExcHook.dialog_created env = Returned tt)
      /\ (In (ExcHook.PrintLine (ExcHook.msg_fatal ++ text)) (trace_of run)
          <-> ExcHook.dialog_created env = Raised
              \/ ExcHook.exec_result env = Raised)).
Proof.
  intros Hs run. subst run.
  destruct env as [ki msg name op wr has lm se dc ex]. cbn in Hs. subst se.
  hook_unfold. cbn [ExcHook.is_keyboard_interrupt ExcHook.error_msg
    ExcHook.log_file_name ExcHook.open_result ExcHook.write_result
    ExcHook.has_log_message ExcHook.log_message_result
    ExcHook.str_exc_value ExcHook.dialog_created ExcHook.exec_result].
  destruct ki.
  - cbn. repeat split; try discriminate; auto.
  - destruct name as [n|], op as [[]|], wr as [[]|], has, lm as [[]|],
      dc as [[]|], ex as [[]|]; cbn;
    (split; [reflexivity|]);
    (split; [split; [intros H; exfalso;
                     repeat (destruct H as [H|H]; [discriminate H|]);
                     exact H
                    |discriminate]|]);
    (split; [discriminate|]); intros _;
    (split; [lia|]);
    (split; [intros d H;
             repeat (destruct H as [H|H];
                     [first [discriminate H
                            |injection H as <-; reflexivity]|]);
             destruct H|]);
    (split; split; intros H;
       try reflexivity; try discriminate H;
       try (exfalso;
            repeat (destruct H as [H|H]; [discriminate H|]);
            exact H);
       try (destruct H as [H|H]; discriminate H);
       auto 12).
Qed.

Lemma handle_exception_contained_witness :
  let run :=
    ExcHook.handle_exception uncased_lower unwritable_log_env None in
  result_of run = Returned tt
  /\ In (ExcHook.PrintLine
           (ExcHook.msg_fatal ++ py "Connection timed out"))
        (trace_of run).
Proof.
  pose proof (handle_exception_contained uncased_lower unwritable_log_env
                None (py "Connection timed out") eq_refl) as H.
  cbv zeta in H |- *.
  split; [exact (proj1 H)|].
  apply (proj2 (proj2 (proj2 (proj2 (proj2 (proj2 H)) eq_refl)))).
  left. reflexivity.
Defined.

(** X22.  The line for the log panel names the log file as saved as soon
    as its path was built, whether or not the file was written: when
    opening or writing the file raises, the console is told that writing
    failed, nothing (or not all) is written, and the panel still says
    that the log was saved under that name.  Only when the path itself
    could not be built (the directory cannot be made) does the panel get
    the bare line, and no file is opened. *)
Theorem handle_exception_names_unwritten_log
    (ul : pystr -> N -> pystr -> pystr) (env : ExcHook.Env)
    (log_file : option pystr) :
  ExcHook.is_keyboard_interrupt env = false ->
  ExcHook.has_log_message env = true ->
  let tr := trace_of (ExcHook.handle_exception ul env log_file) in
  (forall name, ExcHook.log_file_name env = Returned name ->
     In (ExcHook.UiLogMessage (ExcHook.ui_msg (Some name)) true) tr
     /\ (ExcHook.open_result env = Raised ->
         In (ExcHook.PrintLine ExcHook.msg_log_failed) tr
         /\ filter ExcHook.is_log_write tr = [])
     /\ (ExcHook.write_result env = Raised ->
         In (ExcHook.PrintLine ExcHook.msg_log_failed) tr))
  /\ (ExcHook.log_file_name env = Raised ->
      In (ExcHook.UiLogMessage ExcHook.ui_base true) tr
      /\ In (ExcHook.PrintLine ExcHook.msg_log_failed) tr
      /\ forall name, ~ In (ExcHook.OpenLogFile name) tr).
Proof.
  intros Hk Hh tr. subst tr.
  destruct env as [ki msg name op wr has lm se dc ex].
  cbn in Hk, Hh. subst ki has.
  hook_unfold. cbn [ExcHook.is_keyboard_interrupt ExcHook.error_msg
    ExcHook.log_file_name ExcHook.open_result ExcHook.write_result
    ExcHook.has_log_message ExcHook.log_message_result
    ExcHook.str_exc_value ExcHook.dialog_created ExcHook.exec_result].
  split.
  - intros n ->.
    destruct op as [[]|], wr as [[]|], lm as [[]|], se as [s|],
      dc as [[]|], ex as [[]|];
    cbn [fst snd app ExcHook.ui_msg];
    (split; [cbn; auto 8|]);
    (split; [intros H;
             first [discriminate H|split; [cbn; auto 8|reflexivity]]
            |intros H; first [discriminate H|cbn; auto 8]]).
  - intros ->.
    destruct lm as [[]|], se as [s|], dc as [[]|], ex as [[]|];
    cbn [fst snd app ExcHook.ui_msg];
    (split; [cbn; auto 8|]); (split; [cbn; auto 8|]);
    intros n H; cbn in H;
    repeat (destruct H as [H|H]; [discriminate H|]); exact H.
Qed.

Lemma handle_exception_names_unwritten_log_witness :
  let tr :=
    trace_of (ExcHook.handle_exception uncased_lower unwritable_log_env None)
  in
  In (ExcHook.UiLogMessage
        (py "程序内部错误，已停止当前操作。（已保存日志：global_error_20250920.log）")
        true) tr
  /\ In (ExcHook.PrintLine ExcHook.msg_log_failed) tr
  /\ filter ExcHook.is_log_write tr = [].
Proof.
  pose proof (handle_exception_names_unwritten_log uncased_lower
                unwritable_log_env None eq_refl eq_refl) as H.
  cbv zeta in H |- *.
  destruct (proj1 H (py "global_error_20250920.log") eq_refl)
    as [Hui [Hop _]].
  split; [exact Hui|]. exact (Hop eq_refl).
Defined.

(** X23.  The hook is not proof against an exception that cannot be
    printed.  The dialog's [try] takes [str(exc_value)]; when that raises,
    its [except] branch formats the same value for the console line, which
    raises again, outside every [try]: the hook itself raises, having
    shown no dialog and printed no line about the exception.  The log
    file and the panel line come before and are not affected.
    ([traceback.format_exception], called first and outside every [try],
    is taken as returning.) *)
Theorem handle_exception_unprintable_escapes
    (ul : pystr -> N -> pystr -> pystr) (env : ExcHook.Env)
    (log_file : option pystr) :
  ExcHook.is_keyboard_interrupt env = false ->
  ExcHook.str_exc_value env = Raised ->
  let run := ExcHook.handle_exception ul env log_file in
  result_of run = Raised
  /\ filter ExcHook.is_fatal_dialog (trace_of run) = []
  /\ (forall text, ~ In (ExcHook.PrintLine (ExcHook.msg_fatal ++ text))
                        (trace_of run))
  /\ (ExcHook.has_log_message env = true ->
      exists name, In (ExcHook.UiLogMessage (ExcHook.ui_msg name) true)
                      (trace_of run)).
Proof.
  intros Hk Hs run. subst run.
  destruct env as [ki msg name op wr has lm se dc ex].
  cbn in Hk, Hs. subst ki se.
  hook_unfold. cbn [ExcHook.is_keyboard_interrupt ExcHook.error_msg
    ExcHook.log_file_name ExcHook.open_result ExcHook.write_result
    ExcHook.has_log_message ExcHook.log_message_result
    ExcHook.str_exc_value ExcHook.dialog_created ExcHook.exec_result].
  destruct name as [n|], op as [[]|], wr as [[]|], has, lm as [[]|];
    cbn [fst snd app filter ExcHook.is_fatal_dialog ExcHook.is_log_write];
    (split; [reflexivity|]); (split; [reflexivity|]);
    (split; [intros text H; cbn in H;
             repeat (destruct H as [H|H]; [discriminate H|]); exact H|]);
    intros H; try discriminate H;
    first [exists (Some n); cbn; auto 8 | exists None; cbn; auto 8].
Qed.

Lemma handle_exception_unprintable_escapes_witness :
  let env :=
    {| ExcHook.is_keyboard_interrupt := false;
       ExcHook.error_msg := py "<unprintable object>";
       ExcHook.log_file_name := Returned (py "global_error_20250920.log");
       ExcHook.open_result := Returned tt;
       ExcHook.write_result := Returned tt;
       ExcHook.has_log_message := true;
       ExcHook.log_message_result := Returned tt;
       ExcHook.str_exc_value := Raised;
       ExcHook.dialog_created := Returned tt;
       ExcHook.exec_result := Returned tt |} in
  result_of (ExcHook.handle_exception uncased_lower env None) = Raised.
Proof.
  intros env.
  exact (proj1 (handle_exception_unprintable_escapes uncased_lower env None
                  eq_refl eq_refl)).
Defined.

(** ** The directory of a record *)

Lemma split_on_head (sep : N) (s d : pystr) (fs : list pystr) :
  Records.split_on sep s = d :: fs ->
  ~ In sep d
  /\ (fs = [] -> s = d)
  /\ (fs <> [] -> exists rest,
        s = d ++ sep :: rest /\ Records.split_on sep rest = fs).
Proof.
  revert d fs. induction s as [|c r IH]; intros d fs; cbn.
  - intros H. injection H as <- <-.
    split; [intros []|]. split; [reflexivity|].
    intros H. exfalso. apply H. reflexivity.
  - destruct (N.eqb_spec c sep) as [->|Hne].
    + intros H. injection H as <- <-.
      split; [intros []|]. split.
      * intros H. exfalso. exact (split_on_nonempty _ _ H).
      * intros _. exists r. split; reflexivity.
    + destruct (Records.split_on sep r) as [|f gs] eqn:E.
      * exfalso. exact (split_on_nonempty _ _ E).
      * intros H. injection H as <- <-.
        destruct (IH f gs eq_refl) as [Hn [Hnil Hcons]].
        split; [|split].
        -- intros [H|H]; [congruence|exact (Hn H)].
        -- intros H. rewrite (Hnil H). reflexivity.
        -- intros H. destruct (Hcons H) as [rest [-> Hr]].
           exists rest. split; [reflexivity|exact Hr].
Qed.

(** X24.  The day's directory and the time of a summary are the first two
    fields of the record's stamp.  Taking the directory name never fails.
    For a stamp with an underscore the name is the text before the first
    underscore (so it has no underscore itself), and the time a summary
    shows is made from the text between the first underscore and the
    next one, or the end; a stamp without underscore falls back to
    today's date for the directory, while the summary shows the stamp
    whole. *)
Theorem stamp_gives_directory_and_time (timestamp today : pystr) :
  exists date,
    Paths.date_str timestamp today = Returned date
    /\ (In Records.UNDERSCORE timestamp ->
        ~ In Records.UNDERSCORE date
        /\ exists rest time_part more,
             timestamp = date ++ Records.UNDERSCORE :: rest
             /\ Records.split_on Records.UNDERSCORE rest = time_part :: more
             /\ Records.formatted_summary_time timestamp
                = Returned
                    (if (List.length time_part =? 6)%nat
                     then firstn 2 time_part ++ py "点"
                            ++ firstn 2 (skipn 2 time_part) ++ py "分"
                            ++ firstn 2 (skipn 4 time_part) ++ py "秒"
                     else time_part))
    /\ (~ In Records.UNDERSCORE timestamp ->
        date = today
        /\ Records.formatted_summary_time timestamp = Returned timestamp).
Proof.
  unfold Paths.date_str, Records.formatted_summary_time.
  destruct (contains [Records.UNDERSCORE] timestamp) eqn:Hc.
  - apply contains_single in Hc.
    pose proof (split_on_two_fields _ _ Hc) as Hlen.
    destruct (Records.split_on Records.UNDERSCORE timestamp)
      as [|date [|time_part more]] eqn:E; cbn in Hlen; try lia.
    exists date. cbn [nth_error]. split; [reflexivity|].
    split; [|intros Hn; contradiction].
    intros _.
    destruct (split_on_head _ _ _ _ E) as [Hd [_ Hrest]].
    split; [exact Hd|].
    destruct Hrest as [rest [Hts Hr]]; [discriminate|].
    exists rest, time_part, more.
    split; [exact Hts|]. split; [exact Hr|].
    destruct (List.length time_part =? 6)%nat; reflexivity.
  - exists today. split; [reflexivity|].
    split.
    + intros Hin. apply contains_single in Hin. congruence.
    + intros _. split; reflexivity.
Qed.

Lemma stamp_gives_directory_and_time_witness :
  exists date,
    Paths.date_str (Records.timestamp interrupted_summary) (py "2025年11月04日")
    = Returned date
    /\ ~ In Records.UNDERSCORE date.
Proof.
  destruct (stamp_gives_directory_and_time
              (Records.timestamp interrupted_summary) (py "2025年11月04日"))
    as [date [E [H _]]].
  exists date. split; [exact E|].
  apply H. vm_compute. auto 20.
Defined.
